(** * The API client façade of the analytics dashboard

    A shallow embedding of [frontend/src/services/api.ts] (the [ApiService]
    class built on an axios instance), of the part of
    [frontend/src/pages/Settings.tsx] that submits the data-source form, and
    of the declarations of [frontend/src/types/index.ts] they use; then of the
    callers of the façade: the handlers of [App.tsx], [Login.tsx],
    [Settings.tsx], [AnalyticsChat.tsx] and [ChatInterface.tsx], and the stat
    cards of the list pages.

    The JavaScript runtime is not part of the repository.  Its [number] type,
    [Number::toString] (used by template literals) and [JSON.parse] are taken
    as parameters of the development, so every result holds whatever they
    are; the module [Reference] instantiates them for the worked examples.
    The same holds for [JSON.stringify], [String.prototype.trim] and [Date],
    which the callers use. *)

From Stdlib Require Import ZArith String Ascii List Bool.
From stdpp Require Import base option gmap strings list fin_maps pretty.

Import ListNotations.
Local Open Scope string_scope.
Local Open Scope list_scope.
Local Open Scope Z_scope.

(** ** JavaScript values

    What TypeScript calls [any] on this code's paths: the values that JSON
    can carry.  An object literal keeps its keys in insertion order. *)

#[warnings="-register-all"] Inductive json (number : Type) : Type :=
| JNull
| JBool (b : bool)
| JNumber (n : number)
| JString (s : string)
| JArray (items : list (json number))
| JObject (fields : list (string * json number)).

Arguments JNull {number}.
Arguments JBool {number} b.
Arguments JNumber {number} n.
Arguments JString {number} s.
Arguments JArray {number} items.
Arguments JObject {number} fields.

(** ** Promises

    A settled promise is fulfilled with a value or rejected with a reason.
    An [async] method is a state transformer that ends in a settled promise;
    [await] sequences two of them and lets a rejection skip what follows. *)

Inductive Promise (E A : Type) : Type :=
| Fulfilled (value : A)
| Rejected (reason : E).

Arguments Fulfilled {E A} value.
Arguments Rejected {E A} reason.

Definition Async (S E A : Type) : Type := S -> Promise E A * S.

Definition resolve {S E A} (a : A) : Async S E A :=
  fun s => (Fulfilled a, s).

Definition reject {S E A} (e : E) : Async S E A :=
  fun s => (Rejected e, s).

Definition await {S E A B} (m : Async S E A) (k : A -> Async S E B) : Async S E B :=
  fun s =>
    match m s with
    | (Fulfilled a, s') => k a s'
    | (Rejected e, s') => (Rejected e, s')
    end.

Notation "'let!' x ':=' m 'in' k" := (await m (fun x => k))
  (at level 10, x name, m at level 100, k at level 200).

(** ** A reference runtime

    An instance of the runtime parameters, for the worked examples only: no
    general result depends on it.  A number is kept as the exact decimal
    [mantissa * 10 ^ exponent], where JavaScript would round it to binary64. *)

Module Reference.

Record number := { mantissa : Z; exponent : Z }.

Definition integer (z : Z) : number := {| mantissa := z; exponent := 0 |}.

Fixpoint zeros (n : nat) : string :=
  match n with
  | O => EmptyString
  | S n => String "0" (zeros n)
  end.

(** Trailing zeros of a digit string move into the exponent. *)
Fixpoint strip_zeros (digits : list ascii) : list ascii * Z :=
  match digits with
  | [] => ([], 0)
  | d :: digits =>
      match strip_zeros digits with
      | ([], z) => if Ascii.eqb d "0" then ([], z + 1) else ([d], z)
      | (rest, z) => (d :: rest, z)
      end
  end.

Definition take_string (n : Z) (s : string) : string := String.substring 0 (Z.to_nat n) s.
Definition drop_string (n : Z) (s : string) : string :=
  String.substring (Z.to_nat n) (String.length s - Z.to_nat n) s.

(** Number::toString of ECMAScript (radix 10), from the shortest digit
    string [s] of length [k] and the position [n] of the decimal point. *)
Definition Number_toString (x : number) : string :=
  if mantissa x =? 0 then "0" else
  let sign := if mantissa x <? 0 then "-" else EmptyString in
  let '(digits, z) := strip_zeros (list_ascii_of_string (pretty (Z.abs (mantissa x)))) in
  let s := string_of_list_ascii digits in
  let k := Z.of_nat (String.length s) in
  let n := k + z + exponent x in
  let e := n - 1 in
  let exp := "e" +:+ (if e <? 0 then "-" else "+") +:+ pretty (Z.abs e) in
  sign ++
  (if (k <=? n) && (n <=? 21) then s +:+ zeros (Z.to_nat (n - k))
   else if (0 <? n) && (n <=? 21) then take_string n s +:+ "." +:+ drop_string n s
   else if (-6 <? n) && (n <=? 0) then "0." +:+ zeros (Z.to_nat (- n)) +:+ s
   else if k =? 1 then s +:+ exp
   else take_string 1 s +:+ "." +:+ drop_string 1 s +:+ exp).


(** *** JSON.parse

    The grammar of ECMA-404.  A string value is kept as the bytes of the
    text; an escape [\uXXXX] becomes the UTF-8 form of that one code unit.
    An object keeps its keys in the order of the text, a repeated key taking
    the later value. *)

Definition code (c : ascii) : Z := Z.of_N (N_of_ascii c).
Definition char (z : Z) : ascii := ascii_of_N (Z.to_N z).

Definition is_whitespace (c : ascii) : bool :=
  (code c =? 32) || (code c =? 9) || (code c =? 10) || (code c =? 13).

Definition is_digit (c : ascii) : bool := (48 <=? code c) && (code c <=? 57).

Fixpoint skip_whitespace (s : list ascii) : list ascii :=
  match s with
  | c :: rest => if is_whitespace c then skip_whitespace rest else s
  | [] => []
  end.

Fixpoint span_digits (s : list ascii) : list ascii * list ascii :=
  match s with
  | c :: rest =>
      if is_digit c then let '(ds, rest') := span_digits rest in (c :: ds, rest')
      else ([], s)
  | [] => ([], [])
  end.

Definition digits_value (ds : list ascii) : Z :=
  fold_left (fun acc d => 10 * acc + (code d - 48)) ds 0.

Definition parse_exponent (s : list ascii) : option (Z * list ascii) :=
  match s with
  | c :: rest =>
      if (code c =? 101) || (code c =? 69) then        (* e E *)
        let '(negative, rest) :=
          match rest with
          | d :: rest' =>
              if code d =? 45 then (true, rest')       (* - *)
              else if code d =? 43 then (false, rest') (* + *)
              else (false, rest)
          | [] => (false, rest)
          end in
        match span_digits rest with
        | ([], _) => None
        | (ds, rest) => Some (if negative then - digits_value ds else digits_value ds, rest)
        end
      else Some (0, s)
  | [] => Some (0, s)
  end.

Definition parse_fraction (s : list ascii) : option (list ascii * list ascii) :=
  match s with
  | c :: rest =>
      if code c =? 46 then                             (* . *)
        match span_digits rest with
        | ([], _) => None
        | (ds, rest) => Some (ds, rest)
        end
      else Some ([], s)
  | [] => Some ([], s)
  end.

Definition parse_number (s : list ascii) : option (number * list ascii) :=
  let '(negative, s) :=
    match s with
    | c :: rest => if code c =? 45 then (true, rest) else (false, s)
    | [] => (false, s)
    end in
  let '(int, s) := span_digits s in
  let leading_zero :=
    match int with
    | z :: _ :: _ => code z =? 48
    | _ => false
    end in
  match int with
  | [] => None
  | _ =>
      if leading_zero then None else
      '(frac, s) ← parse_fraction s;
      '(exp, s) ← parse_exponent s;
      let m := digits_value (int ++ frac) in
      Some ({| mantissa := if negative then - m else m;
               exponent := exp - Z.of_nat (length frac) |}, s)
  end.

Definition hex_value (c : ascii) : option Z :=
  let x := code c in
  if (48 <=? x) && (x <=? 57) then Some (x - 48)
  else if (97 <=? x) && (x <=? 102) then Some (x - 87)
  else if (65 <=? x) && (x <=? 70) then Some (x - 55)
  else None.

Definition utf8 (u : Z) : list ascii :=
  if u <? 128 then [char u]
  else if u <? 2048 then [char (192 + u / 64); char (128 + u mod 64)]
  else [char (224 + u / 4096); char (128 + (u / 64) mod 64); char (128 + u mod 64)].

Definition simple_escape (c : ascii) : option ascii :=
  let x := code c in
  if (x =? 34) || (x =? 92) || (x =? 47) then Some c    (* quote, backslash, slash *)
  else if x =? 98 then Some (char 8)
  else if x =? 102 then Some (char 12)
  else if x =? 110 then Some (char 10)
  else if x =? 114 then Some (char 13)
  else if x =? 116 then Some (char 9)
  else None.

(** The characters of a string after its opening quote. *)
Fixpoint parse_string (s : list ascii) : option (list ascii * list ascii) :=
  match s with
  | [] => None
  | c :: rest =>
      if code c =? 34 then Some ([], rest)
      else if code c =? 92 then
        match rest with
        | e :: rest' =>
            if code e =? 117 then                      (* u *)
              match rest' with
              | h1 :: h2 :: h3 :: h4 :: rest'' =>
                  a ← hex_value h1; b ← hex_value h2;
                  c ← hex_value h3; d ← hex_value h4;
                  '(cs, r) ← parse_string rest'';
                  Some (utf8 (4096 * a + 256 * b + 16 * c + d) ++ cs, r)
              | _ => None
              end
            else
              x ← simple_escape e;
              '(cs, r) ← parse_string rest';
              Some (x :: cs, r)
        | [] => None
        end
      else if code c <? 32 then None
      else '(cs, r) ← parse_string rest; Some (c :: cs, r)
  end.

Fixpoint set_field {A} (key : string) (v : A) (fields : list (string * A))
  : list (string * A) :=
  match fields with
  | [] => [(key, v)]
  | (k, w) :: fields =>
      if String.eqb k key then (k, v) :: fields else (k, w) :: set_field key v fields
  end.

Definition literal (word : string) (v : json number) (s : list ascii)
  : option (json number * list ascii) :=
  let w := list_ascii_of_string word in
  if decide (take (length w) s = w) then Some (v, drop (length w) s) else None.

Fixpoint parse_value (fuel : nat) (s : list ascii) : option (json number * list ascii) :=
  match fuel with
  | O => None
  | S fuel =>
      match skip_whitespace s with
      | [] => None
      | c :: rest =>
          if code c =? 34 then
            '(cs, r) ← parse_string rest; Some (JString (string_of_list_ascii cs), r)
          else if code c =? 91 then                     (* [ *)
            match skip_whitespace rest with
            | d :: rest' =>
                if code d =? 93 then Some (JArray [], rest')
                else '(vs, r) ← parse_elements fuel rest; Some (JArray vs, r)
            | [] => None
            end
          else if code c =? 123 then                    (* { *)
            match skip_whitespace rest with
            | d :: rest' =>
                if code d =? 125 then Some (JObject [], rest')
                else '(fs, r) ← parse_members fuel [] rest; Some (JObject fs, r)
            | [] => None
            end
          else if code c =? 116 then literal "true" (JBool true) (c :: rest)
          else if code c =? 102 then literal "false" (JBool false) (c :: rest)
          else if code c =? 110 then literal "null" JNull (c :: rest)
          else '(n, r) ← parse_number (c :: rest); Some (JNumber n, r)
      end
  end
with parse_elements (fuel : nat) (s : list ascii) : option (list (json number) * list ascii) :=
  match fuel with
  | O => None
  | S fuel =>
      '(v, r) ← parse_value fuel s;
      match skip_whitespace r with
      | c :: rest =>
          if code c =? 44 then '(vs, r) ← parse_elements fuel rest; Some (v :: vs, r)
          else if code c =? 93 then Some ([v], rest)
          else None
      | [] => None
      end
  end
with parse_members (fuel : nat) (seen : list (string * json number)) (s : list ascii)
  : option (list (string * json number) * list ascii) :=
  match fuel with
  | O => None
  | S fuel =>
      match skip_whitespace s with
      | q :: rest =>
          if code q =? 34 then
            '(key, r) ← parse_string rest;
            match skip_whitespace r with
            | colon :: r =>
                if code colon =? 58 then
                  '(v, r) ← parse_value fuel r;
                  let seen := set_field (string_of_list_ascii key) v seen in
                  match skip_whitespace r with
                  | c :: rest =>
                      if code c =? 44 then parse_members fuel seen rest
                      else if code c =? 125 then Some (seen, rest)
                      else None
                  | [] => None
                  end
                else None
            | [] => None
            end
          else None
      | [] => None
      end
  end.

Definition JSON_parse (text : string) : option (json number) :=
  let s := list_ascii_of_string text in
  '(v, r) ← parse_value (2 * length s + 2) s;
  match skip_whitespace r with
  | [] => Some v
  | _ => None
  end.

(** *** JSON.stringify

    [JSON.stringify(value, null, space)] for a numeric [space]: members and
    elements one per line, indented by [space] blanks per level (ten at
    most), all on one line when [space] is below one. *)

Definition hex_digit (n : Z) : ascii :=
  if n <? 10 then char (48 + n) else char (87 + n).

Definition escape (c : ascii) : list ascii :=
  let x := code c in
  if (x =? 34) || (x =? 92) then [char 92; c]
  else if x =? 8 then [char 92; char 98]
  else if x =? 12 then [char 92; char 102]
  else if x =? 10 then [char 92; char 110]
  else if x =? 13 then [char 92; char 114]
  else if x =? 9 then [char 92; char 116]
  else if x <? 32 then
    [char 92; char 117; char 48; char 48; hex_digit (x / 16); hex_digit (x mod 16)]
  else [c].

Definition quote (s : string) : string :=
  string_of_list_ascii
    ([char 34] ++ concat (map escape (list_ascii_of_string s)) ++ [char 34]).

Fixpoint join (separator : string) (parts : list string) : string :=
  match parts with
  | [] => EmptyString
  | [part] => part
  | part :: parts => part +:+ separator +:+ join separator parts
  end.

Definition newline : string := String (char 10) EmptyString.

Definition wrap (opening closing gap indent : string) (parts : list string) : string :=
  match parts with
  | [] => opening +:+ closing
  | _ =>
      if String.eqb gap EmptyString then opening +:+ join "," parts +:+ closing
      else
        opening +:+ newline +:+ indent +:+ gap +:+
        join ("," +:+ newline +:+ indent +:+ gap) parts +:+
        newline +:+ indent +:+ closing
  end.

Fixpoint serialize (gap indent : string) (v : json number) : string :=
  match v with
  | JNull => "null"
  | JBool true => "true"
  | JBool false => "false"
  | JNumber n => Number_toString n
  | JString s => quote s
  | JArray items =>
      wrap "[" "]" gap indent (map (serialize gap (indent +:+ gap)) items)
  | JObject fields =>
      wrap "{" "}" gap indent
        (map (fun field =>
                match field with
                | (key, v) =>
                    quote key +:+ ":" +:+
                    (if String.eqb gap EmptyString then EmptyString else " ") +:+
                    serialize gap (indent +:+ gap) v
                end) fields)
  end.

Fixpoint blanks (n : nat) : string :=
  match n with
  | O => EmptyString
  | S n => String " " (blanks n)
  end.

Definition JSON_stringify (v : json number) (space : Z) : string :=
  serialize (blanks (Z.to_nat (Z.min 10 space))) EmptyString v.

(** *** String.prototype.trim

    The white space and line terminators of ASCII. *)

Definition is_blank (c : ascii) : bool :=
  ((9 <=? code c) && (code c <=? 13)) || (code c =? 32).

Fixpoint trim_start (s : list ascii) : list ascii :=
  match s with
  | c :: rest => if is_blank c then trim_start rest else s
  | [] => []
  end.

Definition String_trim (s : string) : string :=
  string_of_list_ascii (rev (trim_start (rev (trim_start (list_ascii_of_string s))))).

End Reference.

Section Facade.

Context {number : Type}.
Variable Number_toString : number -> string.

(** [JSON.parse]: [None] stands for the [SyntaxError] it throws. *)
Variable JSON_parse : string -> option (json number).

Local Abbreviation any := (json number).

(** [Record<string, any>] and untyped object literals. *)
Definition object : Type := list (string * any).

(** ** frontend/src/types/index.ts *)

Inductive Severity := low | medium | high | critical.
Inductive DataSourceType := logs | metrics | cicd | tests.
Inductive LogLevel := DEBUG | INFO | WARN | ERROR | FATAL.
Inductive PipelineStatus := success | failed | running | pending.
(* [failed] is taken by the pipeline status: the test statuses are prefixed. *)
Inductive TestStatus := test_passed | test_failed | test_skipped.

Record Metric := {
  Metric_id : number;
  Metric_name : string;
  Metric_value : number;
  Metric_unit : option string;
  Metric_source : string;
  Metric_timestamp : string;
  Metric_tags : option object;
  Metric_metadata : option object;
  Metric_created_at : string;
}.

Record Anomaly := {
  Anomaly_id : number;
  Anomaly_metric_id : number;
  Anomaly_severity : Severity;
  Anomaly_score : number;
  Anomaly_description : string;
  Anomaly_detected_at : string;
  Anomaly_resolved : bool;
  Anomaly_resolved_at : option string;
  Anomaly_metadata : option object;
  Anomaly_created_at : string;
}.

Record DataSource := {
  DataSource_id : number;
  DataSource_name : string;
  DataSource_type : DataSourceType;
  DataSource_config : object;
  DataSource_enabled : bool;
  DataSource_last_sync : option string;
  DataSource_created_at : string;
  DataSource_updated_at : option string;
}.

Record LogEntry := {
  LogEntry_id : number;
  LogEntry_level : LogLevel;
  LogEntry_message : string;
  LogEntry_source : string;
  LogEntry_timestamp : string;
  LogEntry_metadata : option object;
  LogEntry_created_at : string;
}.

Record CICDPipeline := {
  CICDPipeline_id : number;
  CICDPipeline_pipeline_name : string;
  CICDPipeline_status : PipelineStatus;
  CICDPipeline_duration : option number;
  CICDPipeline_start_time : option string;
  CICDPipeline_end_time : option string;
  CICDPipeline_commit_hash : option string;
  CICDPipeline_branch : option string;
  CICDPipeline_metadata : option object;
  CICDPipeline_created_at : string;
}.

Record TestResult := {
  TestResult_id : number;
  TestResult_test_suite : string;
  TestResult_test_name : string;
  TestResult_status : TestStatus;
  TestResult_duration : option number;
  TestResult_error_message : option string;
  TestResult_timestamp : string;
  TestResult_metadata : option object;
  TestResult_created_at : string;
}.

Record AnalyticsSummary := {
  total_metrics : number;
  total_anomalies : number;
  active_data_sources : number;
  recent_pipelines : number;
  test_pass_rate : number;
  AnalyticsSummary_time_range : string;
  generated_at : string;
}.

Record QueryMetadata := {
  query_type : string;
  QueryMetadata_time_range : string;
  result_count : number;
  QueryMetadata_execution_time : number;
}.

Record QueryResponse := {
  results : list object;
  QueryResponse_metadata : QueryMetadata;
  QueryResponse_execution_time : number;
}.

Record HealthResponse := {
  HealthResponse_status : string;
  service : string;
  version : string;
}.

Record AuthResponse := {
  access_token : string;
  token_type : string;
}.

Record TimeSeriesData := {
  timestamp : string;
  value : option number;          (* number | null *)
}.

Record ConversationalResult := {
  response : string;
  insights : option (list any);
  ConversationalResult_data : option any;
}.

Record ConversationalMetadata := {
  processing_time : number;
  confidence : number;
  model_used : string;
}.

Record ConversationalQueryResponse := {
  result : ConversationalResult;
  ConversationalQueryResponse_metadata : ConversationalMetadata;
}.

(** The two anonymous result shapes declared in api.ts. *)
Record IngestResult := {
  IngestResult_status : string;
  ingested_count : number;
}.

Record DetectResult := {
  anomalies : list Anomaly;
  count : number;
}.

(** ** axios

    The part of the library that the façade relies on: an instance holds
    default settings, a call supplies its own, the two are merged, the request
    interceptors run, the adapter sends the request, and the response is
    settled by [validateStatus] before the response interceptors run.
    Every setting of [AxiosRequestConfig] is optional. *)

Inductive Method := GET | POST | PUT | DELETE.

Record AxiosRequestConfig := {
  baseURL : option string;
  timeout : option Z;
  headers : gmap string string;
  method : option Method;
  url : option string;
  params : option object;
  payload : option any;             (* axios calls this setting [data] *)
}.

Record AxiosResponse (T : Type) := {
  data : T;
  status : Z;
}.
#[global] Arguments data {T} _.
#[global] Arguments status {T} _.

(** An axios error always carries the request; [response] is present only
    when the server answered. *)
Record AxiosError (T : Type) := {
  code : option string;
  config : AxiosRequestConfig;
  response_of : option (AxiosResponse T);   (* error.response *)
}.
#[global] Arguments code {T} _.
#[global] Arguments config {T} _.
#[global] Arguments response_of {T} _.

(** What comes back for one request: an HTTP response, or nothing at all
    (connection failure, or the timeout firing: code ECONNABORTED). *)
Inductive Reply (T : Type) :=
| Responded (status : Z) (body : T)
| NoResponse (code : string).
#[global] Arguments Responded {T} status body.
#[global] Arguments NoResponse {T} code.

(** The backend and the network are outside the program: a reply may depend
    on the request and on everything sent before it. *)
Definition Network (T : Type) : Type :=
  list AxiosRequestConfig -> AxiosRequestConfig -> Reply T.

(** The library default, which the façade does not override. *)
Definition validateStatus (status : Z) : bool :=
  (200 <=? status) && (status <? 300).

Definition settle {T} (config : AxiosRequestConfig) (reply : Reply T)
  : Promise (AxiosError T) (AxiosResponse T) :=
  match reply with
  | Responded status body =>
      let response := {| data := body; status := status |} in
      if validateStatus status then Fulfilled response
      else Rejected {| code := None; config := config; response_of := Some response |}
  | NoResponse code =>
      Rejected {| code := Some code; config := config; response_of := None |}
  end.

Definition or_else {A} (x y : option A) : option A :=
  match x with Some _ => x | None => y end.

(** Settings of the call win over the defaults of the instance; headers are
    merged key by key. *)
Definition mergeConfig (defaults call : AxiosRequestConfig) : AxiosRequestConfig :=
  {| baseURL := or_else (baseURL call) (baseURL defaults);
     timeout := or_else (timeout call) (timeout defaults);
     headers := headers call ∪ headers defaults;
     method := or_else (method call) (method defaults);
     url := or_else (url call) (url defaults);
     params := or_else (params call) (params defaults);
     payload := or_else (payload call) (payload defaults) |}.

(** The configs that [instance.get(url, config)], [instance.delete(url)],
    [instance.post(url, data)] and [instance.put(url, data)] hand to
    [instance.request]. *)
Definition get_config (url' : string) (params' : option object) : AxiosRequestConfig :=
  {| baseURL := None; timeout := None; headers := ∅; method := Some GET;
     url := Some url'; params := params'; payload := None |}.

Definition delete_config (url' : string) : AxiosRequestConfig :=
  {| baseURL := None; timeout := None; headers := ∅; method := Some DELETE;
     url := Some url'; params := None; payload := None |}.

Definition post_config (url' : string) (data' : option any) : AxiosRequestConfig :=
  {| baseURL := None; timeout := None; headers := ∅; method := Some POST;
     url := Some url'; params := None; payload := data' |}.

Definition put_config (url' : string) (data' : option any) : AxiosRequestConfig :=
  {| baseURL := None; timeout := None; headers := ∅; method := Some PUT;
     url := Some url'; params := None; payload := data' |}.

(** What the browser adapter of axios puts on the wire for the request it is
    handed: when the request has no body the adapter leaves the
    [Content-Type] header out; everything else goes as configured.  ([wire]
    below keeps each request as it was handed to the adapter.) *)
Definition transmitted (request : AxiosRequestConfig) : AxiosRequestConfig :=
  match payload request with
  | Some _ => request
  | None =>
      {| baseURL := baseURL request; timeout := timeout request;
         headers := delete "Content-Type" (headers request);
         method := method request; url := url request; params := params request;
         payload := None |}
  end.

(** ** The browser and the service object

    One record for what the code reads and writes: the two fields of the
    [ApiService] object, the browser's [localStorage] and
    [window.location.href], and the requests that have left through the
    adapter, oldest first. *)

Record State := {
  client : AxiosRequestConfig;            (* this.client: the instance defaults *)
  token : option string;                  (* this.token: string | null *)
  localStorage : gmap string string;
  location_href : string;
  wire : list AxiosRequestConfig;
}.

Definition set_token (t : option string) (this : State) : State :=
  {| client := client this; token := t; localStorage := localStorage this;
     location_href := location_href this; wire := wire this |}.

Definition localStorage_setItem (key val : string) (this : State) : State :=
  {| client := client this; token := token this;
     localStorage := <[key := val]> (localStorage this);
     location_href := location_href this; wire := wire this |}.

Definition localStorage_removeItem (key : string) (this : State) : State :=
  {| client := client this; token := token this;
     localStorage := delete key (localStorage this);
     location_href := location_href this; wire := wire this |}.

Definition localStorage_getItem (key : string) (this : State) : option string :=
  localStorage this !! key.

Definition set_location_href (href : string) (this : State) : State :=
  {| client := client this; token := token this; localStorage := localStorage this;
     location_href := href; wire := wire this |}.

Definition send (request : AxiosRequestConfig) (this : State) : State :=
  {| client := client this; token := token this; localStorage := localStorage this;
     location_href := location_href this; wire := wire this ++ [request] |}.

(** ** frontend/src/services/api.ts

    The class keeps no record of what it forwards.  The filters
    ([params?: { start_time?, ... }]), the partial records and the request
    records ([Partial<DataSource>], [QueryRequest],
    [ConversationalQueryRequest]) and the [any] payloads reach axios as the
    JavaScript values the caller built, so they are [object] and [any] here;
    responses are read at the type each method declares. *)

(** [process.env.REACT_APP_API_URL || 'http://localhost:8000'] *)
Definition API_BASE_URL (REACT_APP_API_URL : option string) : string :=
  match REACT_APP_API_URL with
  | Some env => if String.eqb env EmptyString then "http://localhost:8000" else env
  | None => "http://localhost:8000"
  end.

(** JavaScript truthiness of a [string | null]. *)
Definition truthy (s : option string) : bool :=
  match s with
  | Some s => negb (String.eqb s EmptyString)
  | None => false
  end.

(** A template literal converts its argument with [String(...)]. *)
Definition String_of (s : option string) : string :=
  match s with
  | Some s => s
  | None => "null"
  end.

Definition set_header (key val : string) (config : AxiosRequestConfig)
  : AxiosRequestConfig :=
  {| baseURL := baseURL config; timeout := timeout config;
     headers := <[key := val]> (headers config);
     method := method config; url := url config; params := params config;
     payload := payload config |}.

(** The request interceptor: [if (this.token) config.headers.Authorization =
    `Bearer ${this.token}`; return config]. *)
Definition request_interceptor (this : State) (config : AxiosRequestConfig)
  : AxiosRequestConfig :=
  if truthy (token this)
  then set_header "Authorization" ("Bearer " ++ String_of (token this)) config
  else config.

(** The response interceptor: responses pass through; on an error whose
    response has status 401 the session is torn down; the error is rejected
    again in both cases. *)
Definition response_interceptor_fulfilled {T} (response : AxiosResponse T)
  : AxiosResponse T := response.

Definition is_401 {T} (error : AxiosError T) : bool :=
  match response_of error with
  | Some response => status response =? 401
  | None => false
  end.

(** The three statements of the 401 branch. *)
Definition teardown (this : State) : State :=
  set_location_href "/login" (localStorage_removeItem "auth_token" (set_token None this)).

Definition response_interceptor_rejected {T A} (error : AxiosError T)
  : Async State (AxiosError T) A :=
  fun this => reject error (if is_401 error then teardown this else this).

(** The settings given to [axios.create] in the constructor. *)
Definition instance_config (REACT_APP_API_URL : option string) : AxiosRequestConfig :=
  {| baseURL := Some (API_BASE_URL REACT_APP_API_URL);
     timeout := Some 10000;
     headers := {[ "Content-Type" := "application/json" ]};
     method := None; url := None; params := None; payload := None |}.

(** [new ApiService()] in a browser whose storage is [storage] and whose
    address bar shows [href]. *)
Definition constructor (REACT_APP_API_URL : option string)
    (storage : gmap string string) (href : string) : State :=
  let this :=
    {| client := instance_config REACT_APP_API_URL;
       token := None;
       localStorage := storage;
       location_href := href;
       wire := [] |} in
  set_token (localStorage_getItem "auth_token" this) this.

Definition setToken (token' : string) (this : State) : State :=
  localStorage_setItem "auth_token" token' (set_token (Some token') this).

Definition clearToken (this : State) : State :=
  localStorage_removeItem "auth_token" (set_token None this).

(** The request as it reaches the adapter: instance defaults merged with the
    call's settings, then the request interceptor. *)
Definition outgoing (this : State) (call : AxiosRequestConfig) : AxiosRequestConfig :=
  request_interceptor this (mergeConfig (client this) call).

(** [this.client.request(config)] with the two interceptors installed by the
    constructor. *)
Definition client_request {T} (net : Network T) (call : AxiosRequestConfig)
  : Async State (AxiosError T) (AxiosResponse T) :=
  fun this =>
    let request := outgoing this call in
    let reply := net (wire this) request in
    let this := send request this in
    match settle request reply with
    | Fulfilled response => resolve (response_interceptor_fulfilled response) this
    | Rejected error => response_interceptor_rejected error this
    end.

Definition client_get {T} (net : Network T) (url' : string) (params' : option object) :=
  client_request net (get_config url' params').
Definition client_post {T} (net : Network T) (url' : string) (data' : option any) :=
  client_request net (post_config url' data').
Definition client_put {T} (net : Network T) (url' : string) (data' : option any) :=
  client_request net (put_config url' data').
Definition client_delete {T} (net : Network T) (url' : string) :=
  client_request net (delete_config url').

Local Abbreviation Api T R := (Async State (AxiosError T) R).

(** A synchronous method call inside an [async] body. *)
Definition sync {E} (f : State -> State) : Async State E unit :=
  fun this => resolve tt (f this).

(* Authentication *)
Definition login (net : Network AuthResponse) : Api AuthResponse AuthResponse :=
  let! response := client_post net "/auth/login" None in
  let! _ := sync (setToken (access_token (data response))) in
  resolve (data response).

(* Health check *)
Definition healthCheck (net : Network HealthResponse) : Api HealthResponse HealthResponse :=
  let! response := client_get net "/health" None in
  resolve (data response).

(* Metrics *)
Definition getMetrics (net : Network (list Metric)) (params' : option object)
  : Api (list Metric) (list Metric) :=
  let! response := client_get net "/metrics" params' in
  resolve (data response).

Definition ingestMetrics (net : Network IngestResult) (metricData : any)
  : Api IngestResult IngestResult :=
  let! response := client_post net "/metrics/ingest" (Some metricData) in
  resolve (data response).

Definition getTimeSeriesData (net : Network (list TimeSeriesData))
    (metricName : string) (timeRange aggregation : option string)
  : Api (list TimeSeriesData) (list TimeSeriesData) :=
  let timeRange := default "24h" timeRange in
  let aggregation := default "avg" aggregation in
  let! response :=
    client_get net "/metrics/timeseries"
      (Some [("metric_name", JString metricName);
             ("time_range", JString timeRange);
             ("aggregation", JString aggregation)]) in
  resolve (data response).

(* Anomalies *)
Definition getAnomalies (net : Network (list Anomaly)) (params' : option object)
  : Api (list Anomaly) (list Anomaly) :=
  let! response := client_get net "/anomalies" params' in
  resolve (data response).

Definition detectAnomalies (net : Network DetectResult) (metricData : any)
  : Api DetectResult DetectResult :=
  let! response := client_post net "/anomalies/detect" (Some metricData) in
  resolve (data response).

Definition resolveAnomaly (net : Network any) (anomalyId : number) : Api any bool :=
  let! _ := client_post net ("/anomalies/" ++ Number_toString anomalyId ++ "/resolve") None in
  resolve true.

(* Data Sources; [dataSource] is a [Partial<DataSource>] *)
Definition getDataSources (net : Network (list DataSource))
  : Api (list DataSource) (list DataSource) :=
  let! response := client_get net "/data-sources" None in
  resolve (data response).

Definition createDataSource (net : Network DataSource) (dataSource : object)
  : Api DataSource DataSource :=
  let! response := client_post net "/data-sources" (Some (JObject dataSource)) in
  resolve (data response).

Definition updateDataSource (net : Network DataSource) (id : number) (dataSource : object)
  : Api DataSource DataSource :=
  let! response :=
    client_put net ("/data-sources/" ++ Number_toString id) (Some (JObject dataSource)) in
  resolve (data response).

Definition deleteDataSource (net : Network any) (id : number) : Api any unit :=
  let! _ := client_delete net ("/data-sources/" ++ Number_toString id) in
  resolve tt.

(* Logs *)
Definition getLogEntries (net : Network (list LogEntry)) (params' : option object)
  : Api (list LogEntry) (list LogEntry) :=
  let! response := client_get net "/logs" params' in
  resolve (data response).

Definition ingestLogEntries (net : Network IngestResult) (logData : any)
  : Api IngestResult IngestResult :=
  let! response := client_post net "/logs/ingest" (Some logData) in
  resolve (data response).

(* CI/CD Pipelines *)
Definition getCICDPipelines (net : Network (list CICDPipeline)) (params' : option object)
  : Api (list CICDPipeline) (list CICDPipeline) :=
  let! response := client_get net "/cicd/pipelines" params' in
  resolve (data response).

Definition ingestCICDPipeline (net : Network CICDPipeline) (pipelineData : any)
  : Api CICDPipeline CICDPipeline :=
  let! response := client_post net "/cicd/pipelines" (Some pipelineData) in
  resolve (data response).

(* Test Results *)
Definition getTestResults (net : Network (list TestResult)) (params' : option object)
  : Api (list TestResult) (list TestResult) :=
  let! response := client_get net "/tests/results" params' in
  resolve (data response).

Definition ingestTestResults (net : Network IngestResult) (testData : any)
  : Api IngestResult IngestResult :=
  let! response := client_post net "/tests/ingest" (Some testData) in
  resolve (data response).

(* Analytics; [query] is a [QueryRequest] *)
Definition getAnalyticsSummary (net : Network AnalyticsSummary) (timeRange : option string)
  : Api AnalyticsSummary AnalyticsSummary :=
  let timeRange := default "24h" timeRange in
  let! response :=
    client_get net "/analytics/summary" (Some [("time_range", JString timeRange)]) in
  resolve (data response).

Definition executeQuery (net : Network QueryResponse) (query : object)
  : Api QueryResponse QueryResponse :=
  let! response := client_post net "/analytics/query" (Some (JObject query)) in
  resolve (data response).

(* Reports *)
Definition getReports (net : Network (list any)) (params' : option object)
  : Api (list any) (list any) :=
  let! response := client_get net "/reports" params' in
  resolve (data response).

Definition generateReport (net : Network any) (reportData : any) : Api any any :=
  let! response := client_post net "/reports/generate" (Some reportData) in
  resolve (data response).

(* AI Agents; [query] is a [ConversationalQueryRequest] *)
Definition processConversationalQuery (net : Network ConversationalQueryResponse)
    (query : object) : Api ConversationalQueryResponse ConversationalQueryResponse :=
  let! response := client_post net "/ai-agents/conversational-query" (Some (JObject query)) in
  resolve (data response).

(** ** The façade as a whole

    One constructor per public operation of [ApiService], with its
    arguments, so that a statement can range over every operation. *)

Inductive Operation :=
| Login
| HealthCheck
| GetMetrics (params' : option object)
| IngestMetrics (metricData : any)
| GetTimeSeriesData (metricName : string) (timeRange aggregation : option string)
| GetAnomalies (params' : option object)
| DetectAnomalies (metricData : any)
| ResolveAnomaly (anomalyId : number)
| GetDataSources
| CreateDataSource (dataSource : object)
| UpdateDataSource (id : number) (dataSource : object)
| DeleteDataSource (id : number)
| GetLogEntries (params' : option object)
| IngestLogEntries (logData : any)
| GetCICDPipelines (params' : option object)
| IngestCICDPipeline (pipelineData : any)
| GetTestResults (params' : option object)
| IngestTestResults (testData : any)
| GetAnalyticsSummary (timeRange : option string)
| ExecuteQuery (query : object)
| GetReports (params' : option object)
| GenerateReport (reportData : any)
| ProcessConversationalQuery (query : object).

(** The type at which the operation reads the response body. *)
Definition ResponseData (op : Operation) : Type :=
  match op with
  | Login => AuthResponse
  | HealthCheck => HealthResponse
  | GetMetrics _ => list Metric
  | IngestMetrics _ | IngestLogEntries _ | IngestTestResults _ => IngestResult
  | GetTimeSeriesData _ _ _ => list TimeSeriesData
  | GetAnomalies _ => list Anomaly
  | DetectAnomalies _ => DetectResult
  | ResolveAnomaly _ | DeleteDataSource _ | GenerateReport _ => any
  | GetDataSources => list DataSource
  | CreateDataSource _ | UpdateDataSource _ _ => DataSource
  | GetLogEntries _ => list LogEntry
  | GetCICDPipelines _ => list CICDPipeline
  | IngestCICDPipeline _ => CICDPipeline
  | GetTestResults _ => list TestResult
  | GetAnalyticsSummary _ => AnalyticsSummary
  | ExecuteQuery _ => QueryResponse
  | GetReports _ => list any
  | ProcessConversationalQuery _ => ConversationalQueryResponse
  end.

(** What the operation's promise is fulfilled with. *)
Definition Returns (op : Operation) : Type :=
  match op with
  | ResolveAnomaly _ => bool
  | DeleteDataSource _ => unit
  | _ => ResponseData op
  end.

Definition perform (op : Operation)
  : Network (ResponseData op) -> Api (ResponseData op) (Returns op) :=
  match op with
  | Login => login
  | HealthCheck => healthCheck
  | GetMetrics p => fun net => getMetrics net p
  | IngestMetrics d => fun net => ingestMetrics net d
  | GetTimeSeriesData m t a => fun net => getTimeSeriesData net m t a
  | GetAnomalies p => fun net => getAnomalies net p
  | DetectAnomalies d => fun net => detectAnomalies net d
  | ResolveAnomaly i => fun net => resolveAnomaly net i
  | GetDataSources => getDataSources
  | CreateDataSource d => fun net => createDataSource net d
  | UpdateDataSource i d => fun net => updateDataSource net i d
  | DeleteDataSource i => fun net => deleteDataSource net i
  | GetLogEntries p => fun net => getLogEntries net p
  | IngestLogEntries d => fun net => ingestLogEntries net d
  | GetCICDPipelines p => fun net => getCICDPipelines net p
  | IngestCICDPipeline d => fun net => ingestCICDPipeline net d
  | GetTestResults p => fun net => getTestResults net p
  | IngestTestResults d => fun net => ingestTestResults net d
  | GetAnalyticsSummary t => fun net => getAnalyticsSummary net t
  | ExecuteQuery q => fun net => executeQuery net q
  | GetReports p => fun net => getReports net p
  | GenerateReport d => fun net => generateReport net d
  | ProcessConversationalQuery q => fun net => processConversationalQuery net q
  end.

(** The settings each method hands to [this.client]: the arguments of its
    one call of [get], [post], [put] or [delete]. *)
Definition call_of (op : Operation) : AxiosRequestConfig :=
  match op with
  | Login => post_config "/auth/login" None
  | HealthCheck => get_config "/health" None
  | GetMetrics p => get_config "/metrics" p
  | IngestMetrics d => post_config "/metrics/ingest" (Some d)
  | GetTimeSeriesData m t a =>
      get_config "/metrics/timeseries"
        (Some [("metric_name", JString m);
               ("time_range", JString (default "24h" t));
               ("aggregation", JString (default "avg" a))])
  | GetAnomalies p => get_config "/anomalies" p
  | DetectAnomalies d => post_config "/anomalies/detect" (Some d)
  | ResolveAnomaly i => post_config ("/anomalies/" ++ Number_toString i ++ "/resolve") None
  | GetDataSources => get_config "/data-sources" None
  | CreateDataSource d => post_config "/data-sources" (Some (JObject d))
  | UpdateDataSource i d =>
      put_config ("/data-sources/" ++ Number_toString i) (Some (JObject d))
  | DeleteDataSource i => delete_config ("/data-sources/" ++ Number_toString i)
  | GetLogEntries p => get_config "/logs" p
  | IngestLogEntries d => post_config "/logs/ingest" (Some d)
  | GetCICDPipelines p => get_config "/cicd/pipelines" p
  | IngestCICDPipeline d => post_config "/cicd/pipelines" (Some d)
  | GetTestResults p => get_config "/tests/results" p
  | IngestTestResults d => post_config "/tests/ingest" (Some d)
  | GetAnalyticsSummary t =>
      get_config "/analytics/summary" (Some [("time_range", JString (default "24h" t))])
  | ExecuteQuery q => post_config "/analytics/query" (Some (JObject q))
  | GetReports p => get_config "/reports" p
  | GenerateReport d => post_config "/reports/generate" (Some d)
  | ProcessConversationalQuery q =>
      post_config "/ai-agents/conversational-query" (Some (JObject q))
  end.

(** A backend answers every operation at the type the operation declares. *)
Definition Backend : Type := forall op : Operation, Network (ResponseData op).

(** ** frontend/src/pages/Settings.tsx

    The component state, what [window.alert] has shown, the query keys that
    were invalidated, and whether the submit event had its default action
    prevented. *)

Record FormData := {
  FormData_name : string;
  FormData_type : DataSourceType;
  FormData_config : string;
  FormData_enabled : bool;
}.

Record Settings := {
  showAddForm : bool;
  editingSource : option DataSource;
  formData : FormData;
  alerts : list string;
  invalidated : list string;
  defaultPrevented : bool;
}.

Definition DataSourceType_literal (t : DataSourceType) : string :=
  match t with
  | logs => "logs"
  | metrics => "metrics"
  | cicd => "cicd"
  | tests => "tests"
  end.

Definition setShowAddForm (b : bool) (page : Settings) : Settings :=
  {| showAddForm := b; editingSource := editingSource page; formData := formData page;
     alerts := alerts page; invalidated := invalidated page;
     defaultPrevented := defaultPrevented page |}.

Definition setEditingSource (source : option DataSource) (page : Settings) : Settings :=
  {| showAddForm := showAddForm page; editingSource := source; formData := formData page;
     alerts := alerts page; invalidated := invalidated page;
     defaultPrevented := defaultPrevented page |}.

Definition setFormData (form : FormData) (page : Settings) : Settings :=
  {| showAddForm := showAddForm page; editingSource := editingSource page; formData := form;
     alerts := alerts page; invalidated := invalidated page;
     defaultPrevented := defaultPrevented page |}.

Definition alert (message : string) (page : Settings) : Settings :=
  {| showAddForm := showAddForm page; editingSource := editingSource page;
     formData := formData page; alerts := alerts page ++ [message];
     invalidated := invalidated page; defaultPrevented := defaultPrevented page |}.

Definition invalidateQueries (key : string) (page : Settings) : Settings :=
  {| showAddForm := showAddForm page; editingSource := editingSource page;
     formData := formData page; alerts := alerts page;
     invalidated := invalidated page ++ [key]; defaultPrevented := defaultPrevented page |}.

Definition preventDefault (page : Settings) : Settings :=
  {| showAddForm := showAddForm page; editingSource := editingSource page;
     formData := formData page; alerts := alerts page;
     invalidated := invalidated page; defaultPrevented := true |}.

Definition resetForm (page : Settings) : Settings :=
  setFormData {| FormData_name := EmptyString; FormData_type := logs;
                 FormData_config := "{}"; FormData_enabled := true |} page.

(** react-query's [useMutation(mutationFn, { onSuccess }).mutate(variables)]:
    the mutation function runs, and [onSuccess] runs if its promise is
    fulfilled; a rejection stays inside the mutation object. *)
Definition mutate {V T R} (mutationFn : V -> Api T R) (onSuccess : Settings -> Settings)
    (variables : V) (st : Settings * State) : Settings * State :=
  match mutationFn variables st.2 with
  | (Fulfilled _, this) => (onSuccess st.1, this)
  | (Rejected _, this) => (st.1, this)
  end.

Definition createMutation (backend : Backend) (dataSource : object) :=
  mutate (fun dataSource => createDataSource (backend (CreateDataSource dataSource)) dataSource)
    (fun page => resetForm (setShowAddForm false (invalidateQueries "data-sources" page)))
    dataSource.

Definition updateMutation (backend : Backend) (variables : number * object) :=
  mutate (fun '(id, dataSource) =>
            updateDataSource (backend (UpdateDataSource id dataSource)) id dataSource)
    (fun page => resetForm (setEditingSource None (invalidateQueries "data-sources" page)))
    variables.

(** [{ ...formData, config }]: the form's four keys in order, with the parsed
    value in place of the text. *)
Definition spread_formData (form : FormData) (config' : any) : object :=
  [("name", JString (FormData_name form));
   ("type", JString (DataSourceType_literal (FormData_type form)));
   ("config", config');
   ("enabled", JBool (FormData_enabled form))].

Definition handleSubmit (backend : Backend) (st : Settings * State) : Settings * State :=
  let st := (preventDefault st.1, st.2) in
  match JSON_parse (FormData_config (formData st.1)) with
  | Some config' =>
      match editingSource st.1 with
      | Some source =>
          updateMutation backend
            (DataSource_id source, spread_formData (formData st.1) config') st
      | None =>
          createMutation backend (spread_formData (formData st.1) config') st
      end
  | None => (alert "Invalid JSON in config field" st.1, st.2)
  end.

(** *** The other handlers of Settings.tsx *)

(** [JSON.stringify(value, null, space)] on a value that JSON can carry. *)
Variable JSON_stringify : any -> Z -> string.

Definition deleteMutation (backend : Backend) (id : number) :=
  mutate (fun id => deleteDataSource (backend (DeleteDataSource id)) id)
    (fun page => invalidateQueries "data-sources" page)
    id.

Definition handleEdit (source : DataSource) (page : Settings) : Settings :=
  let page := setEditingSource (Some source) page in
  let page :=
    setFormData
      {| FormData_name := DataSource_name source;
         FormData_type := DataSource_type source;
         FormData_config := JSON_stringify (JObject (DataSource_config source)) 2;
         FormData_enabled := DataSource_enabled source |} page in
  setShowAddForm true page.

(** [window.confirm] shows the message and returns the user's answer. *)
Definition handleDelete (confirm : string -> bool) (backend : Backend) (id : number)
    (st : Settings * State) : Settings * State :=
  if confirm "Are you sure you want to delete this data source?"
  then deleteMutation backend id st
  else st.

(** The [onClick] of the two "Add Data Source" buttons and of "Cancel". *)
Definition onClick_add (page : Settings) : Settings :=
  setShowAddForm true (resetForm (setEditingSource None page)).

Definition onClick_cancel (page : Settings) : Settings :=
  resetForm (setEditingSource None (setShowAddForm false page)).

(** ** frontend/src/App.tsx

    The two state variables of the component and the labels that
    [console.error] has printed.  The component runs against the one service
    object the module of api.ts exports. *)

Record App := {
  isAuthenticated : option bool;          (* boolean | null *)
  isLoading : bool;
  console : list string;
}.

Definition App_initial : App :=
  {| isAuthenticated := None; isLoading := true; console := [] |}.

Definition setIsAuthenticated (b : bool) (app : App) : App :=
  {| isAuthenticated := Some b; isLoading := isLoading app; console := console app |}.

Definition setIsLoading (b : bool) (app : App) : App :=
  {| isAuthenticated := isAuthenticated app; isLoading := b; console := console app |}.

Definition console_error (label : string) (app : App) : App :=
  {| isAuthenticated := isAuthenticated app; isLoading := isLoading app;
     console := console app ++ [label] |}.

(** A statement on the service object, and one on the component, inside an
    [async] function of the component. *)
Definition on_service {E A} (m : Async State E A) : Async (App * State) E A :=
  fun st =>
    match m st.2 with
    | (r, this) => (r, (st.1, this))
    end.

Definition on_app {E} (f : App -> App) : Async (App * State) E unit :=
  fun st => resolve tt (f st.1, st.2).

(** [try { body } catch (error) { handler }] and [... finally { cleanup }]. *)
Definition try_catch {S E E' A} (body : Async S E A) (handler : E -> Async S E' A)
  : Async S E' A :=
  fun s =>
    match body s with
    | (Fulfilled a, s') => (Fulfilled a, s')
    | (Rejected e, s') => handler e s'
    end.

Definition try_finally {S E A} (body : Async S E A) (cleanup : S -> S) : Async S E A :=
  fun s =>
    match body s with
    | (r, s') => (r, cleanup s')
    end.

(** [checkAuth], the effect run once when the component mounts. *)
Definition checkAuth (net : Network HealthResponse)
  : Async (App * State) (AxiosError HealthResponse) unit :=
  try_finally
    (try_catch
       (fun st =>
          match localStorage_getItem "auth_token" st.2 with
          | Some token' =>
              if truthy (Some token') then
                (let! _ := on_service (sync (setToken token')) in
                 (* Verify token by making a health check *)
                 let! _ := on_service (healthCheck net) in
                 on_app (setIsAuthenticated true)) st
              else on_app (setIsAuthenticated false) st
          | None => on_app (setIsAuthenticated false) st
          end)
       (fun error =>
          let! _ := on_app (console_error "Auth check failed:") in
          let! _ := on_app (setIsAuthenticated false) in
          on_service (sync clearToken)))
    (fun st => (setIsLoading false st.1, st.2)).

Definition handleLogin (net : Network AuthResponse)
  : Async (App * State) (AxiosError AuthResponse) unit :=
  try_catch
    (let! _ := on_service (login net) in
     on_app (setIsAuthenticated true))
    (fun error =>
       let! _ := on_app (console_error "Login failed:") in
       on_app (setIsAuthenticated false)).

Definition handleLogout (st : App * State) : App * State :=
  (setIsAuthenticated false st.1, clearToken st.2).

(** ** The stat cards of the list pages

    [data?.filter(x => x.field === literal).length || 0], once per card.
    [None] is the [undefined] of a query that has no data yet. *)

Definition Severity_literal (s : Severity) : string :=
  match s with
  | low => "low"
  | medium => "medium"
  | high => "high"
  | critical => "critical"
  end.

Definition LogLevel_literal (l : LogLevel) : string :=
  match l with
  | DEBUG => "DEBUG"
  | INFO => "INFO"
  | WARN => "WARN"
  | ERROR => "ERROR"
  | FATAL => "FATAL"
  end.

Definition PipelineStatus_literal (s : PipelineStatus) : string :=
  match s with
  | success => "success"
  | failed => "failed"
  | running => "running"
  | pending => "pending"
  end.

Definition card_count {A} (field : A -> string) (items : option (list A))
    (literal : string) : nat :=
  match items with
  | Some items => length (filter (fun x => String.eqb (field x) literal = true) items)
  | None => 0%nat
  end.

(* Anomalies page *)
Definition severity_cards (anomalies' : option (list Anomaly)) : list (string * nat) :=
  map (fun severity =>
         (severity, card_count (fun a => Severity_literal (Anomaly_severity a))
                      anomalies' severity))
    ["critical"; "high"; "medium"; "low"].

(* Logs page *)
Definition level_cards (logs' : option (list LogEntry)) : list (string * nat) :=
  map (fun level =>
         (level, card_count (fun l => LogLevel_literal (LogEntry_level l)) logs' level))
    ["ERROR"; "WARN"; "INFO"; "DEBUG"; "FATAL"].

(* CI/CD page *)
Definition status_cards (pipelines : option (list CICDPipeline)) : list (string * nat) :=
  map (fun status' =>
         (status', card_count (fun p => PipelineStatus_literal (CICDPipeline_status p))
                     pipelines status'))
    ["success"; "failed"; "running"; "pending"].

(** ** frontend/src/pages/Login.tsx

    The component's own [isLoading], beside the state its [onLogin] prop
    works on; [console_error'] is what [console.error] does to that state. *)

Definition Login_handleLogin {S E} (console_error' : string -> S -> S)
    (onLogin : Async S E unit) : Async (bool * S) E unit :=
  fun st =>
    let st := (true, st.2) in                       (* setIsLoading(true) *)
    try_finally
      (try_catch
         (fun st => match onLogin st.2 with (r, s) => (r, (st.1, s)) end)
         (fun error st => resolve tt (st.1, console_error' "Login failed:" st.2)))
      (fun st => (false, st.2)) st.

(** ** frontend/src/pages/AnalyticsChat.tsx

    [handleInsightGenerated] formats each new insight with the clock and its
    index ([format] stands for that callback of [map]) and stores
    [[...prev, ...formattedInsights].slice(0, 10)]. *)



(** How a call of a callback ends: it returns, or it throws. *)
Inductive Outcome := returns | throws.

(** How a call of [handleInsightGenerated] ends.  The callback of [map] reads
    [insight.content], and reading a property of [null] throws a TypeError;
    of any other value that JSON carries the read gives a value or
    [undefined].  Nothing has been stored when it throws. *)
Definition handleInsightGenerated_outcome (newInsights : list any) : Outcome :=
  if existsb (fun insight => match insight with JNull => true | _ => false end) newInsights
  then throws
  else returns.

(** ** frontend/src/components/ChatInterface.tsx

    [Date] is the runtime's date object.  What the handler reads from the
    clock during one call is gathered in [Readings]. *)

Context {Date : Type}.

(** [String.prototype.trim]. *)
Variable String_trim : string -> string.

Inductive Sender := user | bot.

Record Message := {
  Message_id : string;
  Message_content : string;
  Message_sender : Sender;
  Message_timestamp : Date;
  Message_metadata : option ConversationalMetadata;   (* any: only [response.metadata] is ever stored *)
}.

(** A message as the value placed in the request ([previous_messages: any[]]). *)
Variable Message_any : Message -> any.

Record Chat := {
  messages : list Message;
  input : string;
  Chat_isLoading : bool;
  notified : list (list any);            (* the calls of the [onInsightGenerated] prop *)
}.

Record Readings := {
  user_id : string;                      (* Date.now().toString() *)
  user_time : Date;                      (* new Date() *)
  request_time : string;                 (* new Date().toISOString() *)
  reply_id : string;                     (* (Date.now() + 1).toString() *)
  reply_time : Date;                     (* new Date() *)
  error_id : string;                     (* (Date.now() + 1).toString(), in the catch *)
  error_time : Date;                     (* new Date(), in the catch *)
}.

Definition push_message (message : Message) (chat : Chat) : Chat :=
  {| messages := messages chat ++ [message]; input := input chat;
     Chat_isLoading := Chat_isLoading chat; notified := notified chat |}.

Definition setInput (text : string) (chat : Chat) : Chat :=
  {| messages := messages chat; input := text;
     Chat_isLoading := Chat_isLoading chat; notified := notified chat |}.

Definition Chat_setIsLoading (b : bool) (chat : Chat) : Chat :=
  {| messages := messages chat; input := input chat;
     Chat_isLoading := b; notified := notified chat |}.

Definition notify (insights' : list any) (chat : Chat) : Chat :=
  {| messages := messages chat; input := input chat;
     Chat_isLoading := Chat_isLoading chat; notified := notified chat ++ [insights'] |}.

(** [array.slice(-n)]: the last [n] elements. *)
Definition slice_last {A} (n : nat) (l : list A) : list A :=
  drop (length l - n)%nat l.

(** [a || b] on strings. *)
Definition or_string (a b : string) : string :=
  if String.eqb a EmptyString then b else a.

Definition in_service {P E A} (m : Async State E A) : Async (P * State) E A :=
  fun st =>
    match m st.2 with
    | (r, this) => (r, (st.1, this))
    end.

Definition in_page {P E} (f : P -> P) : Async (P * State) E unit :=
  fun st => resolve tt (f st.1, st.2).

(** The rejection of [m], wrapped by [f]. *)
Definition raising {S E E' A} (f : E -> E') (m : Async S E A) : Async S E' A :=
  fun s =>
    match m s with
    | (Fulfilled a, s') => (Fulfilled a, s')
    | (Rejected e, s') => (Rejected (f e), s')
    end.

(** What the [try] block of [handleSendMessage] can throw: the rejection of
    the request, or whatever the parent's callback throws. *)
Inductive Thrown :=
| request_error (error : AxiosError ConversationalQueryResponse)
| callback_error.

(** A call of the [onInsightGenerated] prop: the call is recorded, and it
    returns or throws as the callback does on these insights. *)
Definition call_onInsightGenerated (callback : list any -> Outcome) (insights' : list any)
  : Async (Chat * State) Thrown unit :=
  fun st =>
    match callback insights' with
    | returns => resolve tt (notify insights' st.1, st.2)
    | throws => reject callback_error (notify insights' st.1, st.2)
    end.

(** [onInsightGenerated] is the optional prop: [None] when the parent did not
    pass it, and otherwise how a call of it ends on given insights. *)
Definition handleSendMessage (net : Network ConversationalQueryResponse)
    (onInsightGenerated : option (list any -> Outcome)) (clock : Readings)
  : Async (Chat * State) (AxiosError ConversationalQueryResponse) unit :=
  fun st =>
    let input' := input st.1 in
    let messages' := messages st.1 in
    if String.eqb (String_trim input') EmptyString || Chat_isLoading st.1
    then resolve tt st
    else
      let userMessage :=
        {| Message_id := user_id clock; Message_content := input';
           Message_sender := user; Message_timestamp := user_time clock;
           Message_metadata := None |} in
      let st := (Chat_setIsLoading true (setInput EmptyString (push_message userMessage st.1)),
                 st.2) in
      try_finally
        (try_catch
           ((* Call the conversational query API *)
            let! response' :=
              raising request_error
                (in_service
                   (processConversationalQuery net
                      [("query", JString input');
                       ("context",
                        JObject [("previous_messages",
                                  JArray (map Message_any (slice_last 5 messages')));
                                 ("timestamp", JString (request_time clock))])])) in
            let botMessage :=
              {| Message_id := reply_id clock;
                 Message_content :=
                   or_string (response (result response'))
                     "I apologize, but I couldn't process your request. Please try again.";
                 Message_sender := bot; Message_timestamp := reply_time clock;
                 Message_metadata :=
                   Some (ConversationalQueryResponse_metadata response') |} in
            let! _ := in_page (push_message botMessage) in
            (* Notify parent component if insights were generated *)
            match insights (result response'), onInsightGenerated with
            | Some insights', Some callback => call_onInsightGenerated callback insights'
            | _, _ => resolve tt
            end)
           (fun error =>
              let errorMessage :=
                {| Message_id := error_id clock;
                   Message_content :=
                     "Sorry, I encountered an error while processing your request. Please try again later.";
                   Message_sender := bot; Message_timestamp := error_time clock;
                   Message_metadata := None |} in
              in_page (push_message errorMessage)))
        (fun st => (Chat_setIsLoading false st.1, st.2)) st.

(** ** Runs of the façade *)

(** The states the service object can be in: freshly constructed, or changed
    by one of its public methods, under any backend. *)
Inductive reachable (env : option string) : State -> Prop :=
| reach_constructor storage href :
    reachable env (constructor env storage href)
| reach_setToken token' this :
    reachable env this -> reachable env (setToken token' this)
| reach_clearToken this :
    reachable env this -> reachable env (clearToken this)
| reach_perform (backend : Backend) op this :
    reachable env this -> reachable env (perform op (backend op) this).2.

(** A sequence of operations issued one after the other. *)
Fixpoint run (backend : Backend) (ops : list Operation) (this : State) : State :=
  match ops with
  | [] => this
  | op :: ops => run backend ops (perform op (backend op) this).2
  end.

Definition unauthenticated (request : AxiosRequestConfig) : Prop :=
  headers request !! "Authorization" = None.

(** Every request of the run [ops], started in [this], leaves without a
    bearer credential: one request per operation, none with the header. *)
Definition sends_unauthenticated (backend : Backend) (ops : list Operation)
    (this : State) : Prop :=
  exists sent,
    wire (run backend ops this) = wire this ++ sent /\
    length sent = length ops /\
    Forall unauthenticated sent.

(** The in-memory token and the persisted one are the same. *)
Definition mirrored (this : State) : Prop :=
  token this = localStorage this !! "auth_token".

(** A call that leaves the base URL, the timeout and the headers to the
    instance. *)
Definition plain (call : AxiosRequestConfig) : Prop :=
  baseURL call = None /\ timeout call = None /\ headers call = ∅.

(** The request decoration as the specification words it: the Authorization
    header is the bearer form of the token exactly when a token is set (is
    not null). *)
Definition bearer_iff_token_set (env : option string) : Prop :=
  forall (backend : Backend) op this,
    reachable env this ->
    exists request,
      wire (perform op (backend op) this).2 = wire this ++ [request] /\
      headers request !! "Authorization" = (fun t => "Bearer " +:+ t) <$> token this.

(** The uniform settings as the specification words them: every request
    that goes out has the timeout of 10000 ms and the JSON content type. *)
Definition json_content_type_on_every_request (env : option string) : Prop :=
  forall (backend : Backend) op this,
    reachable env this ->
    exists request,
      wire (perform op (backend op) this).2 = wire this ++ [request] /\
      timeout (transmitted request) = Some 10000 /\
      headers (transmitted request) !! "Content-Type" = Some "application/json".

(** What the promise of an operation is fulfilled with, given the body of
    the accepted response. *)
Definition fulfilled_with (op : Operation) : Returns op -> ResponseData op -> Prop :=
  match op with
  | ResolveAnomaly _ => fun value _ => value = true
  | DeleteDataSource _ => fun value _ => value = tt
  | _ => fun value body => value = body
  end.

(** What an operation stores from the body of the accepted response. *)
Definition stored_by (op : Operation) : ResponseData op -> State -> State :=
  match op with
  | Login => fun body => setToken (access_token body)
  | _ => fun _ this => this
  end.

(** A backend that never answers 401. *)
Definition never_unauthorized (backend : Backend) : Prop :=
  forall op history request body, backend op history request <> Responded 401 body.

(** Every request of the run [ops], started in [this], carries the bearer
    form of [token']. *)
Definition sends_bearer (backend : Backend) (token' : string) (ops : list Operation)
    (this : State) : Prop :=
  exists sent,
    wire (run backend ops this) = wire this ++ sent /\
    length sent = length ops /\
    Forall (fun request =>
              headers request !! "Authorization" = Some ("Bearer " +:+ token')) sent.

(** ** Scenarios

    Backends used in the worked examples. *)

(** Nothing answers. *)
Definition offline : Backend :=
  fun op _ _ => NoResponse "ERR_NETWORK".

(** The health endpoint answers with the given status; nothing else answers. *)
Definition health_backend (status' : Z) : Backend :=
  fun op =>
    match op return Network (ResponseData op) with
    | HealthCheck =>
        fun _ _ =>
          Responded status'
            {| HealthResponse_status := "ok"; service := "analytics"; version := "1.0.0" |}
    | op => offline op
    end.

(** The login endpoint issues the given token. *)
Definition issue_token (token' : string) : Network AuthResponse :=
  fun _ _ => Responded 200 {| access_token := token'; token_type := "bearer" |}.

Definition auth_backend (token' : string) : Backend :=
  fun op =>
    match op return Network (ResponseData op) with
    | Login => issue_token token'
    | op => offline op
    end.

(** Login issues the given token and the health endpoint is up. *)
Definition live_backend (token' : string) : Backend :=
  fun op =>
    match op return Network (ResponseData op) with
    | Login => issue_token token'
    | op => health_backend 200 op
    end.

(** The data-source endpoints accept what they get and answer with the
    given record; nothing else answers. *)
Definition storing_backend (record : DataSource) : Backend :=
  fun op =>
    match op return Network (ResponseData op) with
    | CreateDataSource _ => fun _ _ => Responded 201 record
    | UpdateDataSource _ _ => fun _ _ => Responded 200 record
    | DeleteDataSource _ => fun _ _ => Responded 204 (JString EmptyString)
    | op => offline op
    end.

(** ** Proof automation *)

Ltac case_settle :=
  match goal with
  | |- context [@settle ?T ?request ?reply] => destruct (@settle T request reply)
  end.

Ltac unfold_operation :=
  unfold login, healthCheck, getMetrics, ingestMetrics, getTimeSeriesData,
    getAnomalies, detectAnomalies, resolveAnomaly, getDataSources,
    createDataSource, updateDataSource, deleteDataSource, getLogEntries,
    ingestLogEntries, getCICDPipelines, ingestCICDPipeline, getTestResults,
    ingestTestResults, getAnalyticsSummary, executeQuery, getReports,
    generateReport, processConversationalQuery,
    client_get, client_post, client_put, client_delete, await, sync, resolve.

(** ** Properties of the transport *)

Lemma client_request_eq {T} (net : Network T) (call : AxiosRequestConfig) (this : State) :
  client_request net call this =
    let request := outgoing this call in
    match settle request (net (wire this) request) with
    | Fulfilled response => (Fulfilled response, send request this)
    | Rejected error =>
        (Rejected error,
         if is_401 error then teardown (send request this) else send request this)
    end.
Proof.
  unfold client_request, response_interceptor_rejected, response_interceptor_fulfilled,
    resolve, reject.
  cbv zeta. destruct (settle _ _); reflexivity.
Qed.

Ltac open_call :=
  unfold_operation; rewrite client_request_eq; cbv zeta.

Lemma validateStatus_401 : validateStatus 401 = false.
Proof. reflexivity. Qed.

Lemma settle_responded {T} request status (body : T) :
  settle request (Responded status body) =
    if validateStatus status
    then Fulfilled {| data := body; status := status |}
    else Rejected {| code := None; config := request;
                     response_of := Some {| data := body; status := status |} |}.
Proof. reflexivity. Qed.

(** The decoration only ever touches the Authorization header. *)
Lemma outgoing_headers this call key :
  key <> "Authorization" ->
  headers (outgoing this call) !! key = (headers call ∪ headers (client this)) !! key.
Proof.
  intros Hk. unfold outgoing, request_interceptor.
  destruct (truthy (token this)); simpl; [|reflexivity].
  rewrite lookup_insert_ne; [reflexivity|congruence].
Qed.

Lemma outgoing_authorization this call :
  headers call !! "Authorization" = None ->
  headers (client this) !! "Authorization" = None ->
  headers (outgoing this call) !! "Authorization" =
    if truthy (token this) then Some ("Bearer " +:+ String_of (token this)) else None.
Proof.
  intros Hc Hd. unfold outgoing, request_interceptor.
  destruct (truthy (token this)); simpl.
  - apply lookup_insert_eq.
  - rewrite lookup_union_r; assumption.
Qed.

Lemma outgoing_timeout this call :
  timeout (outgoing this call) = or_else (timeout call) (timeout (client this)).
Proof. unfold outgoing, request_interceptor. destruct (truthy _); reflexivity. Qed.

Lemma outgoing_route this call :
  method (outgoing this call) = or_else (method call) (method (client this)) /\
  url (outgoing this call) = or_else (url call) (url (client this)) /\
  params (outgoing this call) = or_else (params call) (params (client this)) /\
  payload (outgoing this call) = or_else (payload call) (payload (client this)) /\
  baseURL (outgoing this call) = or_else (baseURL call) (baseURL (client this)).
Proof. unfold outgoing, request_interceptor. destruct (truthy _); simpl; auto. Qed.

(** ** Properties shared by all operations *)

(** Every operation issues exactly one plain call; a rejection reaches the
    caller as it left the transport, and a fulfilment changes the state only
    by what [login] stores. *)
Lemma perform_cases (backend : Backend) (op : Operation) (this : State) :
  exists call, plain call /\
    let request := outgoing this call in
    let sent := send request this in
    match settle request (backend op (wire this) request) with
    | Fulfilled _ =>
        exists value this',
          perform op (backend op) this = (Fulfilled value, this') /\
          (this' = sent \/ exists token', op = Login /\ this' = setToken token' sent)
    | Rejected error =>
        perform op (backend op) this =
          (Rejected error, if is_401 error then teardown sent else sent)
    end.
Proof.
  destruct op; simpl; unfold_operation; rewrite client_request_eq;
    match goal with
    | |- context [outgoing this (?f ?a ?b)] => exists (f a b)
    | |- context [outgoing this (?f ?a)] => exists (f a)
    end;
    (split; [repeat split|]); cbv zeta; cbn [ResponseData Returns];
    (case_settle; [|reflexivity]);
    do 2 eexists; (split; [reflexivity|]); eauto.
Qed.

Lemma perform_sent (backend : Backend) (op : Operation) (this : State) :
  exists call, plain call /\
    wire (perform op (backend op) this).2 = wire this ++ [outgoing this call] /\
    client (perform op (backend op) this).2 = client this.
Proof.
  destruct (perform_cases backend op this) as (call & Hplain & H).
  exists call. split; [assumption|]. cbv zeta in H.
  destruct (settle _ _) as [r|e].
  - destruct H as (v & this' & -> & [-> | (t & _ & ->)]); split; reflexivity.
  - rewrite H. destruct (is_401 e); split; reflexivity.
Qed.

Lemma reachable_client env this :
  reachable env this -> client this = instance_config env.
Proof.
  induction 1 as [storage href|t this _ IH|this _ IH|backend op this _ IH];
    try assumption; try reflexivity.
  destruct (perform_sent backend op this) as (_ & _ & _ & ->). assumption.
Qed.

Lemma truthy_bearer (t : option string) :
  (if truthy t then Some ("Bearer " +:+ String_of t) else None) =
    match t with
    | Some t => if String.eqb t EmptyString then None else Some ("Bearer " +:+ t)
    | None => None
    end.
Proof. destruct t as [t|]; simpl; [destruct (String.eqb t EmptyString)|]; reflexivity. Qed.

(** What the next request carries, for any operation. *)
Lemma perform_authorization env (backend : Backend) op this :
  reachable env this ->
  exists request,
    wire (perform op (backend op) this).2 = wire this ++ [request] /\
    headers request !! "Authorization" =
      if truthy (token this) then Some ("Bearer " +:+ String_of (token this)) else None.
Proof.
  intros Hreach.
  destruct (perform_sent backend op this) as (call & (_ & _ & Hh) & Hwire & _).
  exists (outgoing this call). split; [assumption|].
  apply outgoing_authorization.
  - rewrite Hh. apply lookup_empty.
  - rewrite (reachable_client env this Hreach). reflexivity.
Qed.

(** The mirror invariant, method by method. *)
Lemma mirrored_constructor env storage href : mirrored (constructor env storage href).
Proof. reflexivity. Qed.

Lemma mirrored_setToken token' this : mirrored (setToken token' this).
Proof. unfold mirrored; simpl. symmetry. apply lookup_insert_eq. Qed.

Lemma mirrored_clearToken this : mirrored (clearToken this).
Proof. unfold mirrored; simpl. symmetry. apply lookup_delete_eq. Qed.

Lemma mirrored_teardown this : mirrored (teardown this).
Proof. unfold mirrored; simpl. symmetry. apply lookup_delete_eq. Qed.

Lemma mirrored_perform (backend : Backend) op this :
  mirrored this -> mirrored (perform op (backend op) this).2.
Proof.
  intros Hm. destruct (perform_cases backend op this) as (call & _ & H).
  cbv zeta in H. destruct (settle _ _) as [r|e].
  - destruct H as (v & this' & -> & [-> | (t & _ & ->)]);
      [exact Hm | apply mirrored_setToken].
  - rewrite H. destruct (is_401 e); [apply mirrored_teardown | exact Hm].
Qed.

(** ** The claims *)

(** C1 (amended).  Whatever the operation and its arguments, the one request
    it sends carries [Authorization: Bearer <token>] exactly when the stored
    token is a non-empty string; with a null or empty token the header is
    absent.  The header depends on the token alone: no operation lets its
    caller supply it. *)
Theorem C1_bearer_iff_token_nonempty env (backend : Backend) op this :
  reachable env this ->
  exists request,
    wire (perform op (backend op) this).2 = wire this ++ [request] /\
    headers request !! "Authorization" =
      match token this with
      | Some t => if String.eqb t EmptyString then None else Some ("Bearer " +:+ t)
      | None => None
      end.
Proof.
  intros Hreach.
  destruct (perform_authorization env backend op this Hreach) as (request & Hw & Hh).
  exists request. split; [exact Hw|]. rewrite Hh. apply truthy_bearer.
Qed.

(** C2.  For every operation: if the reply has status 401, the caller gets the
    transport's rejection, and by then the token is null, the key
    [auth_token] is gone from local storage and the location is the login
    view; if the reply has any other status that axios rejects, the caller
    gets the same rejection and token, storage and location are untouched. *)
Theorem C2_unauthorized_teardown (backend : Backend) op this :
  exists request,
    wire (perform op (backend op) this).2 = wire this ++ [request] /\
    forall status body,
      backend op (wire this) request = Responded status body ->
      let error := {| code := None; config := request;
                      response_of := Some {| data := body; status := status |} |} in
      let outcome := perform op (backend op) this in
      (status = 401 ->
         outcome.1 = Rejected error /\
         token outcome.2 = None /\
         localStorage outcome.2 = delete "auth_token" (localStorage this) /\
         localStorage outcome.2 !! "auth_token" = None /\
         location_href outcome.2 = "/login") /\
      (status <> 401 -> validateStatus status = false ->
         outcome.1 = Rejected error /\
         token outcome.2 = token this /\
         localStorage outcome.2 = localStorage this /\
         location_href outcome.2 = location_href this).
Proof.
  destruct (perform_cases backend op this) as (call & _ & H). cbv zeta in H.
  destruct (perform_sent backend op this) as (call' & _ & Hw & _).
  exists (outgoing this call). split.
  - destruct (settle _ _) as [r|e].
    + destruct H as (v & this' & -> & [-> | (t & _ & ->)]); reflexivity.
    + rewrite H. destruct (is_401 e); reflexivity.
  - intros status body Hreply. cbv zeta. rewrite Hreply, settle_responded in H.
    split.
    + intros ->. rewrite validateStatus_401 in H. rewrite H. simpl.
      repeat split. apply lookup_delete_eq.
    + intros Hne Hbad. rewrite Hbad in H. rewrite H.
      unfold is_401; simpl. destruct (Z.eqb_spec status 401); [contradiction|].
      repeat split.
Qed.

(** C3.  The service holds one token ([string | null]) and it is the
    persisted one.  Construction restores it: the new service has the value
    stored under [auth_token], null when the key is absent, and leaves the
    storage as it found it.  From then on, in every state the service can
    reach (any sequence of [setToken], [clearToken] and operations, [login]
    and replies of status 401 included) the in-memory token is the value
    stored under the key: [setToken] puts its argument in both places,
    [clearToken] empties both, and every operation, whatever the reply, ends
    with the two equal. *)
Theorem C3_token_mirrors_storage env (backend : Backend) op token' storage href this :
  reachable env this ->
  (token (constructor env storage href) = storage !! "auth_token" /\
   localStorage (constructor env storage href) = storage) /\
  token this = localStorage this !! "auth_token" /\
  (token (setToken token' this) = Some token' /\
   localStorage (setToken token' this) !! "auth_token" = Some token') /\
  (token (clearToken this) = None /\
   localStorage (clearToken this) !! "auth_token" = None) /\
  token (perform op (backend op) this).2 =
    localStorage (perform op (backend op) this).2 !! "auth_token".
Proof.
  intros Hreach.
  assert (Hm : mirrored this).
  { induction Hreach as [storage0 href0|t this _ _|this _ _|backend0 op0 this _ IH].
    - apply mirrored_constructor.
    - apply mirrored_setToken.
    - apply mirrored_clearToken.
    - apply mirrored_perform, IH. }
  split; [split; reflexivity|]. split; [exact Hm|].
  split; [split; [reflexivity | apply lookup_insert_eq]|].
  split; [split; [reflexivity | apply lookup_delete_eq]|].
  apply mirrored_perform, Hm.
Qed.

Lemma perform_call_of (backend : Backend) op this :
  wire (perform op (backend op) this).2 = wire this ++ [outgoing this (call_of op)].
Proof.
  destruct op; simpl; unfold_operation; rewrite client_request_eq; cbv zeta;
    (case_settle; [reflexivity | destruct (is_401 _); reflexivity]).
Qed.

Lemma call_of_plain op : plain (call_of op).
Proof. destruct op; repeat split. Qed.

(** C9 (amended).  No operation sets a timeout or a header of its own: the
    call of every method leaves both to the instance built in the
    constructor, which is never changed.  Every request therefore goes out
    with the timeout of 10000 ms, and is handed to the adapter with the JSON
    content type; on the wire the header is present exactly when the request
    has a body, since the adapter leaves it out of a request without one. *)
Theorem C9_uniform_timeout_and_content_type_of_bodies env (backend : Backend) op this :
  reachable env this ->
  timeout (call_of op) = None /\
  headers (call_of op) = ∅ /\
  exists request,
    request = outgoing this (call_of op) /\
    wire (perform op (backend op) this).2 = wire this ++ [request] /\
    timeout (transmitted request) = Some 10000 /\
    headers request !! "Content-Type" = Some "application/json" /\
    headers (transmitted request) !! "Content-Type" =
      match payload (call_of op) with
      | Some _ => Some "application/json"
      | None => None
      end /\
    client (perform op (backend op) this).2 = instance_config env.
Proof.
  intros Hreach.
  pose proof (reachable_client env this Hreach) as Hclient.
  destruct (call_of_plain op) as (_ & Ht & Hh).
  split; [exact Ht|]. split; [exact Hh|].
  exists (outgoing this (call_of op)).
  destruct (outgoing_route this (call_of op)) as (_ & _ & _ & Hd & _).
  rewrite Hclient in Hd. simpl in Hd.
  assert (Hpayload : payload (outgoing this (call_of op)) = payload (call_of op))
    by (rewrite Hd; destruct (payload (call_of op)); reflexivity).
  assert (Hconfig : headers (outgoing this (call_of op)) !! "Content-Type" =
                    Some "application/json").
  { rewrite outgoing_headers by discriminate. rewrite Hh, Hclient. reflexivity. }
  split; [reflexivity|]. split; [apply perform_call_of|]. split; [|split; [|split]].
  - unfold transmitted. rewrite Hpayload.
    destruct (payload (call_of op)); simpl;
      rewrite outgoing_timeout, Ht, Hclient; reflexivity.
  - exact Hconfig.
  - unfold transmitted. rewrite Hpayload.
    destruct (payload (call_of op)); simpl; [exact Hconfig | apply lookup_delete_eq].
  - destruct (perform_sent backend op this) as (_ & _ & _ & ->). exact Hclient.
Qed.

(** ** Runs without a usable token *)

Lemma run_app (backend : Backend) ops ops' this :
  run backend (ops ++ ops') this = run backend ops' (run backend ops this).
Proof. revert this. induction ops as [|op ops IH]; intros this; simpl; [reflexivity|apply IH]. Qed.

Lemma perform_keeps_falsy (backend : Backend) op this :
  op <> Login ->
  truthy (token this) = false ->
  truthy (token (perform op (backend op) this).2) = false.
Proof.
  intros Hop Hfalsy. destruct (perform_cases backend op this) as (call & _ & H).
  cbv zeta in H. destruct (settle _ _) as [r|e].
  - destruct H as (v & this' & -> & [-> | (t & Hlogin & _)]);
      [exact Hfalsy | contradiction].
  - rewrite H. destruct (is_401 e); [reflexivity | exact Hfalsy].
Qed.

Lemma perform_unauthenticated env (backend : Backend) op this :
  reachable env this ->
  truthy (token this) = false ->
  exists request,
    wire (perform op (backend op) this).2 = wire this ++ [request] /\
    unauthenticated request.
Proof.
  intros Hreach Hfalsy.
  destruct (perform_authorization env backend op this Hreach) as (request & Hw & Hh).
  exists request. split; [exact Hw|]. unfold unauthenticated.
  rewrite Hh, Hfalsy. reflexivity.
Qed.

Lemma run_falsy env (backend : Backend) ops :
  forall this,
    reachable env this ->
    truthy (token this) = false ->
    Forall (fun op => op <> Login) ops ->
    reachable env (run backend ops this) /\
    truthy (token (run backend ops this)) = false /\
    sends_unauthenticated backend ops this.
Proof.
  induction ops as [|op ops IH]; intros this Hreach Hfalsy Hops; simpl.
  - repeat split; try assumption. exists []. rewrite app_nil_r. repeat split. constructor.
  - inversion Hops as [|? ? Hop Hrest]; subst.
    destruct (perform_unauthenticated env backend op this Hreach Hfalsy)
      as (request & Hw & Hun).
    destruct (IH (perform op (backend op) this).2) as (Hr & Hf & sent & Hs & Hlen & Hall).
    + apply reach_perform, Hreach.
    + apply perform_keeps_falsy; assumption.
    + assumption.
    + repeat split; try assumption.
      exists (request :: sent). unfold run; fold run. rewrite Hs, Hw, <- app_assoc.
      repeat split; simpl; [congruence | constructor; assumption].
Qed.

(** After a run that sets no token, one more operation of any kind ([login]
    too) still leaves without a credential. *)
Lemma run_then_one_unauthenticated env (backend : Backend) ops last this :
  reachable env this ->
  truthy (token this) = false ->
  Forall (fun op => op <> Login) ops ->
  sends_unauthenticated backend (ops ++ [last]) this.
Proof.
  intros Hreach Hfalsy Hops.
  destruct (run_falsy env backend ops this Hreach Hfalsy Hops)
    as (Hr & Hf & sent & Hs & Hlen & Hall).
  destruct (perform_unauthenticated env backend last _ Hr Hf) as (request & Hw & Hun).
  exists (sent ++ [request]). rewrite run_app. simpl. rewrite Hw, Hs, <- app_assoc.
  repeat split.
  - rewrite !length_app. simpl. congruence.
  - apply Forall_app. split; [assumption | constructor; [assumption | constructor]].
Qed.

(** C4.  After [clearToken()] the token is null and local storage has no
    [auth_token] key; and in any run of operations that follows, every request
    up to and including the first [login] (the only operation that sets a
    token) leaves without an Authorization header. *)
Theorem C4_clearToken_removes_credential env (backend : Backend) ops last this :
  reachable env this ->
  Forall (fun op => op <> Login) ops ->
  token (clearToken this) = None /\
  localStorage (clearToken this) !! "auth_token" = None /\
  sends_unauthenticated backend (ops ++ [last]) (clearToken this).
Proof.
  intros Hreach Hops. split; [reflexivity|]. split; [apply lookup_delete_eq|].
  apply (run_then_one_unauthenticated env); [apply reach_clearToken, Hreach | reflexivity | exact Hops].
Qed.

(** C10.  [setToken] of the empty string stores the empty string in memory and under
    [auth_token], and a service constructed over a storage that holds the
    empty string restores it; in both states every request that follows leaves
    without an Authorization header, up to and including the first [login]. *)
Theorem C10_empty_token_is_anonymous env (backend : Backend) ops last this storage href :
  reachable env this ->
  Forall (fun op => op <> Login) ops ->
  (token (setToken EmptyString this) = Some EmptyString /\
   localStorage (setToken EmptyString this) !! "auth_token" = Some EmptyString /\
   sends_unauthenticated backend (ops ++ [last]) (setToken EmptyString this)) /\
  (token (constructor env (<["auth_token" := EmptyString]> storage) href) = Some EmptyString /\
   sends_unauthenticated backend (ops ++ [last])
     (constructor env (<["auth_token" := EmptyString]> storage) href)).
Proof.
  intros Hreach Hops. split; [split; [reflexivity|split]|split].
  - apply lookup_insert_eq.
  - apply (run_then_one_unauthenticated env);
      [apply reach_setToken, Hreach | reflexivity | exact Hops].
  - unfold constructor, localStorage_getItem; simpl. apply lookup_insert_eq.
  - apply (run_then_one_unauthenticated env); [apply reach_constructor | | exact Hops].
    unfold constructor, localStorage_getItem; simpl. rewrite lookup_insert_eq. reflexivity.
Qed.

(** ** Single operations *)

(** C5.  [login()] sends one request, a POST to [/auth/login] with no body
    and no query; when the reply is accepted, the caller receives the
    response record and by then the returned [access_token] is the in-memory
    token and the value stored under [auth_token]. *)
Theorem C5_login_sets_and_persists_token env (net : Network AuthResponse) this :
  reachable env this ->
  exists request,
    wire (login net this).2 = wire this ++ [request] /\
    method request = Some POST /\
    url request = Some "/auth/login" /\
    payload request = None /\
    params request = None /\
    forall status auth,
      net (wire this) request = Responded status auth ->
      validateStatus status = true ->
      (login net this).1 = Fulfilled auth /\
      token (login net this).2 = Some (access_token auth) /\
      localStorage (login net this).2 =
        <["auth_token" := access_token auth]> (localStorage this) /\
      localStorage (login net this).2 !! "auth_token" = Some (access_token auth).
Proof.
  intros Hreach. pose proof (reachable_client env this Hreach) as Hclient.
  exists (outgoing this (post_config "/auth/login" None)).
  destruct (outgoing_route this (post_config "/auth/login" None))
    as (Hm & Hu & Hp & Hd & _).
  rewrite Hclient in Hp, Hd.
  split; [|split; [exact Hm|split; [exact Hu|split; [exact Hd|split; [exact Hp|]]]]].
  - open_call. case_settle; [reflexivity|]. destruct (is_401 _); reflexivity.
  - intros status auth Hreply Hok. open_call.
    rewrite Hreply, settle_responded, Hok. simpl.
    repeat split. apply lookup_insert_eq.
Qed.

(** C6.  [resolveAnomaly(id)] sends one request, a POST to
    [/anomalies/<id>/resolve]; when the reply is accepted the promise is
    fulfilled with [true], whatever the body; when the transport rejects (an
    error status, as for an unknown id, or no response) the promise is
    rejected with the transport's error and no boolean is produced. *)
Theorem C6_resolveAnomaly_true_or_rejection (net : Network any) anomalyId this :
  exists request,
    wire (resolveAnomaly net anomalyId this).2 = wire this ++ [request] /\
    method request = Some POST /\
    url request = Some ("/anomalies/" +:+ Number_toString anomalyId +:+ "/resolve") /\
    (forall status body,
       net (wire this) request = Responded status body ->
       validateStatus status = true ->
       (resolveAnomaly net anomalyId this).1 = Fulfilled true) /\
    (forall error,
       settle request (net (wire this) request) = Rejected error ->
       (resolveAnomaly net anomalyId this).1 = Rejected error).
Proof.
  set (call := post_config ("/anomalies/" +:+ Number_toString anomalyId +:+ "/resolve") None).
  exists (outgoing this call).
  destruct (outgoing_route this call) as (Hm & Hu & _).
  split; [|split; [exact Hm|split; [exact Hu|split]]].
  - open_call. fold call. case_settle; [reflexivity|]. destruct (is_401 _); reflexivity.
  - intros status body Hreply Hok. open_call. fold call.
    rewrite Hreply, settle_responded, Hok. reflexivity.
  - intros error Hsettle. open_call. fold call. rewrite Hsettle. reflexivity.
Qed.

(** C7.  [getTimeSeriesData(metric_name, time_range, aggregation)] sends one
    request, a GET to [/metrics/timeseries] whose query is exactly
    [metric_name], [time_range] and [aggregation], with ['24h'] and ['avg']
    in place of omitted arguments; when the reply is accepted the caller
    receives its body as it is: a list of [{timestamp, value}] records whose
    [value] is a number or null. *)
Theorem C7_getTimeSeriesData_query_and_passthrough
    (net : Network (list TimeSeriesData)) metricName timeRange aggregation this :
  exists request,
    wire (getTimeSeriesData net metricName timeRange aggregation this).2 =
      wire this ++ [request] /\
    method request = Some GET /\
    url request = Some "/metrics/timeseries" /\
    params request =
      Some [("metric_name", JString metricName);
            ("time_range", JString match timeRange with Some t => t | None => "24h" end);
            ("aggregation", JString match aggregation with Some a => a | None => "avg" end)] /\
    forall status (body : list TimeSeriesData),
      net (wire this) request = Responded status body ->
      validateStatus status = true ->
      (getTimeSeriesData net metricName timeRange aggregation this).1 = Fulfilled body.
Proof.
  set (call := get_config "/metrics/timeseries"
                 (Some [("metric_name", JString metricName);
                        ("time_range", JString (default "24h" timeRange));
                        ("aggregation", JString (default "avg" aggregation))])).
  exists (outgoing this call).
  destruct (outgoing_route this call) as (Hm & Hu & Hp & _).
  repeat split; try assumption.
  - open_call. fold call. case_settle; [reflexivity|]. destruct (is_401 _); reflexivity.
  - intros status body Hreply Hok. open_call. fold call.
    rewrite Hreply, settle_responded, Hok. reflexivity.
Qed.

(** C8.  Submitting the data-source form: when the config text does not
    parse, the only effects are the prevented default and one alert, and
    nothing is sent; when it parses, no alert is shown and exactly one request
    is sent, the update (PUT) of the source under edit or else the create
    (POST), carrying the form with the parsed config. *)
Theorem C8_config_must_parse_before_any_call (backend : Backend) page this :
  let after := handleSubmit backend (page, this) in
  (JSON_parse (FormData_config (formData page)) = None ->
     after.2 = this /\
     alerts after.1 = alerts page ++ ["Invalid JSON in config field"] /\
     invalidated after.1 = invalidated page) /\
  (forall config',
     JSON_parse (FormData_config (formData page)) = Some config' ->
     alerts after.1 = alerts page /\
     exists request,
       wire after.2 = wire this ++ [request] /\
       payload request = Some (JObject (spread_formData (formData page) config')) /\
       match editingSource page with
       | Some source =>
           method request = Some PUT /\
           url request = Some ("/data-sources/" +:+ Number_toString (DataSource_id source))
       | None =>
           method request = Some POST /\
           url request = Some "/data-sources"
       end).
Proof.
  cbv zeta. unfold handleSubmit. simpl. split.
  - intros ->. repeat split.
  - intros config' ->. destruct (editingSource page) as [source|].
    + unfold updateMutation, mutate. simpl. open_call.
      set (call := put_config _ _).
      destruct (outgoing_route this call) as (Hm & Hu & _ & Hd & _).
      case_settle.
      * split; [reflexivity|]. exists (outgoing this call). repeat split; assumption.
      * split; [reflexivity|]. exists (outgoing this call).
        destruct (is_401 _); repeat split; assumption.
    + unfold createMutation, mutate. simpl. open_call.
      set (call := post_config _ _).
      destruct (outgoing_route this call) as (Hm & Hu & _ & Hd & _).
      case_settle.
      * split; [reflexivity|]. exists (outgoing this call). repeat split; assumption.
      * split; [reflexivity|]. exists (outgoing this call).
        destruct (is_401 _); repeat split; assumption.
Qed.

(** ** Further properties of the façade *)

Lemma settle_rejected_401 {T} request (reply : Reply T) error :
  settle request reply = Rejected error ->
  is_401 error = true ->
  exists body, reply = Responded 401 body.
Proof.
  destruct reply as [st body|c]; simpl.
  - destruct (validateStatus st); [discriminate|]. intros [= <-]. unfold is_401; simpl.
    intros Heq. apply Z.eqb_eq in Heq. subst st. exists body. reflexivity.
  - intros [= <-]. discriminate.
Qed.

(** The whole effect of one operation, reply by reply. *)
Lemma perform_complete (backend : Backend) (op : Operation) (this : State) :
  exists call, plain call /\
    let request := outgoing this call in
    let sent := send request this in
    match backend op (wire this) request with
    | Responded status' body =>
        if validateStatus status' then
          exists value,
            perform op (backend op) this = (Fulfilled value, stored_by op body sent) /\
            fulfilled_with op value body
        else
          perform op (backend op) this =
            (Rejected {| code := None; config := request;
                         response_of := Some {| data := body; status := status' |} |},
             if status' =? 401 then teardown sent else sent)
    | NoResponse code' =>
        perform op (backend op) this =
          (Rejected {| code := Some code'; config := request; response_of := None |}, sent)
    end.
Proof.
  destruct op; simpl; unfold_operation; rewrite client_request_eq;
    match goal with
    | |- context [outgoing this (?f ?a ?b)] => exists (f a b)
    | |- context [outgoing this (?f ?a)] => exists (f a)
    end;
    (split; [repeat split|]); cbv zeta; cbn [ResponseData Returns];
    match goal with
    | |- context [@settle ?T ?request ?reply] => destruct reply as [status' body|code']
    end;
    simpl; try reflexivity;
    (destruct (validateStatus status'); [eexists; split; reflexivity|]);
    unfold is_401; simpl; destruct (status' =? 401); reflexivity.
Qed.

Lemma stored_by_other op (body : ResponseData op) this :
  op <> Login -> stored_by op body this = this.
Proof. destruct op; intros Hop; try reflexivity. contradiction. Qed.

Lemma stored_by_frame op (body : ResponseData op) this :
  wire (stored_by op body this) = wire this /\
  client (stored_by op body this) = client this /\
  location_href (stored_by op body this) = location_href this /\
  forall key, key <> "auth_token" ->
    localStorage (stored_by op body this) !! key = localStorage this !! key.
Proof.
  destruct op; simpl; repeat split; try reflexivity.
  intros key Hkey. apply lookup_insert_ne. congruence.
Qed.

Lemma perform_wire (backend : Backend) op this call :
  (let request := outgoing this call in
   let sent := send request this in
   match backend op (wire this) request with
   | Responded status' body =>
       if validateStatus status' then
         exists value,
           perform op (backend op) this = (Fulfilled value, stored_by op body sent) /\
           fulfilled_with op value body
       else
         perform op (backend op) this =
           (Rejected {| code := None; config := request;
                        response_of := Some {| data := body; status := status' |} |},
            if status' =? 401 then teardown sent else sent)
   | NoResponse code' =>
       perform op (backend op) this =
         (Rejected {| code := Some code'; config := request; response_of := None |}, sent)
   end) ->
  wire (perform op (backend op) this).2 = wire this ++ [outgoing this call].
Proof.
  cbv zeta. destruct (backend op (wire this) (outgoing this call)) as [st body|c].
  - destruct (validateStatus st).
    + intros (value & -> & _). simpl. apply stored_by_frame.
    + intros ->. destruct (st =? 401); reflexivity.
  - intros ->. reflexivity.
Qed.

(** X1.  A failure without a response (connection lost, timeout): the caller
    gets the transport's rejection, which has no response, and the token,
    the storage and the location stay as they were. *)
Theorem no_response_is_rejected_without_teardown (backend : Backend) op this :
  exists request,
    wire (perform op (backend op) this).2 = wire this ++ [request] /\
    forall code',
      backend op (wire this) request = NoResponse code' ->
      (perform op (backend op) this).1 =
        Rejected {| code := Some code'; config := request; response_of := None |} /\
      token (perform op (backend op) this).2 = token this /\
      localStorage (perform op (backend op) this).2 = localStorage this /\
      location_href (perform op (backend op) this).2 = location_href this.
Proof.
  destruct (perform_complete backend op this) as (call & _ & H).
  exists (outgoing this call). split; [apply perform_wire, H|].
  cbv zeta in H. intros code' Hreply. rewrite Hreply in H. rewrite H. repeat split.
Qed.

(** X2.  What each operation hands back when its reply is accepted:
    [resolveAnomaly] gives [true], [deleteDataSource] gives nothing, and each
    of the other twenty-one gives the response body exactly as received. *)
Theorem accepted_reply_is_returned_as_is (backend : Backend) op this :
  exists request,
    wire (perform op (backend op) this).2 = wire this ++ [request] /\
    forall status' body,
      backend op (wire this) request = Responded status' body ->
      validateStatus status' = true ->
      exists value,
        (perform op (backend op) this).1 = Fulfilled value /\
        fulfilled_with op value body.
Proof.
  destruct (perform_complete backend op this) as (call & _ & H).
  exists (outgoing this call). split; [apply perform_wire, H|].
  cbv zeta in H. intros status' body Hreply Hok. rewrite Hreply, Hok in H.
  destruct H as (value & -> & Hv). exists value. split; [reflexivity | exact Hv].
Qed.

(** X3.  Of all operations only [login] writes the session: when the reply
    of any other operation is accepted, the token, the whole of local storage
    and the location are what they were before the call. *)
Theorem only_login_writes_the_session (backend : Backend) op this :
  op <> Login ->
  exists request,
    wire (perform op (backend op) this).2 = wire this ++ [request] /\
    forall status' body,
      backend op (wire this) request = Responded status' body ->
      validateStatus status' = true ->
      token (perform op (backend op) this).2 = token this /\
      localStorage (perform op (backend op) this).2 = localStorage this /\
      location_href (perform op (backend op) this).2 = location_href this.
Proof.
  intros Hop. destruct (perform_complete backend op this) as (call & _ & H).
  exists (outgoing this call). split; [apply perform_wire, H|].
  cbv zeta in H. intros status' body Hreply Hok. rewrite Hreply, Hok in H.
  destruct H as (value & -> & _). simpl. rewrite stored_by_other by exact Hop.
  repeat split.
Qed.

(** X4.  The façade owns one key of local storage and no other: [setToken],
    [clearToken] and every operation, whatever the reply, leave the value
    under any key other than [auth_token] as it was. *)
Theorem other_storage_keys_are_untouched (backend : Backend) op token' key this :
  key <> "auth_token" ->
  localStorage (setToken token' this) !! key = localStorage this !! key /\
  localStorage (clearToken this) !! key = localStorage this !! key /\
  localStorage (perform op (backend op) this).2 !! key = localStorage this !! key.
Proof.
  intros Hkey. split; [|split].
  - apply lookup_insert_ne. congruence.
  - apply lookup_delete_ne. congruence.
  - destruct (perform_complete backend op this) as (call & _ & H). cbv zeta in H.
    destruct (backend op (wire this) (outgoing this call)) as [st body|c].
    + destruct (validateStatus st).
      * destruct H as (value & -> & _). simpl.
        destruct (stored_by_frame op body (send (outgoing this call) this))
          as (_ & _ & _ & Hs).
        rewrite Hs by exact Hkey. reflexivity.
      * rewrite H. destruct (st =? 401); simpl; [|reflexivity].
        apply lookup_delete_ne. congruence.
    + rewrite H. reflexivity.
Qed.

(** X5.  How the two session methods compose: [clearToken] undoes
    [setToken], the later of two [setToken] wins, [setToken] after
    [clearToken] is [setToken], and [clearToken] twice is [clearToken]
    once. *)
Theorem session_methods_compose token1 token2 this :
  clearToken (setToken token1 this) = clearToken this /\
  setToken token2 (setToken token1 this) = setToken token2 this /\
  setToken token1 (clearToken this) = setToken token1 this /\
  clearToken (clearToken this) = clearToken this.
Proof.
  unfold clearToken, setToken, localStorage_setItem, localStorage_removeItem, set_token;
    simpl.
  repeat split; f_equal.
  - apply delete_insert_eq.
  - apply insert_insert_eq.
  - apply insert_delete_eq.
  - apply delete_delete_eq.
Qed.

(** X6.  A reload keeps the session: a service constructed over the storage
    that any reachable state leaves behind starts with exactly the token that
    state had, whatever the new environment and address. *)
Theorem reload_restores_the_token env env' href this :
  reachable env this ->
  token (constructor env' (localStorage this) href) = token this /\
  reachable env' (constructor env' (localStorage this) href).
Proof.
  intros Hreach. split; [|apply reach_constructor].
  unfold constructor, localStorage_getItem; simpl. symmetry.
  revert Hreach. induction 1 as [storage href0|t this _ _|this _ _|backend op this _ IH].
  - apply mirrored_constructor.
  - apply mirrored_setToken.
  - apply mirrored_clearToken.
  - apply mirrored_perform, IH.
Qed.

Lemma reachable_mirrored env this : reachable env this -> mirrored this.
Proof.
  induction 1 as [storage href|t this _ _|this _ _|backend op this _ IH].
  - apply mirrored_constructor.
  - apply mirrored_setToken.
  - apply mirrored_clearToken.
  - apply mirrored_perform, IH.
Qed.

Lemma perform_keeps_token (backend : Backend) op this :
  never_unauthorized backend ->
  op <> Login ->
  token (perform op (backend op) this).2 = token this.
Proof.
  intros Hnever Hop. destruct (perform_complete backend op this) as (call & _ & H).
  cbv zeta in H.
  destruct (backend op (wire this) (outgoing this call)) as [st body|c] eqn:Hreply.
  - destruct (validateStatus st).
    + destruct H as (value & -> & _). simpl. rewrite stored_by_other by exact Hop.
      reflexivity.
    + rewrite H. destruct (Z.eqb_spec st 401) as [->|]; [|reflexivity].
      exfalso. exact (Hnever _ _ _ _ Hreply).
  - rewrite H. reflexivity.
Qed.

Lemma run_bearer env (backend : Backend) token' ops :
  never_unauthorized backend ->
  token' <> EmptyString ->
  Forall (fun op => op <> Login) ops ->
  forall this,
    reachable env this ->
    token this = Some token' ->
    sends_bearer backend token' ops this /\ token (run backend ops this) = Some token'.
Proof.
  intros Hnever Hne. induction 1 as [|op ops Hop _ IH]; intros this Hreach Htok; simpl.
  - split; [|exact Htok]. exists []. rewrite app_nil_r. repeat split. constructor.
  - destruct (perform_authorization env backend op this Hreach) as (request & Hw & Hh).
    destruct (IH (perform op (backend op) this).2) as ((sent & Hs & Hlen & Hall) & Hfinal).
    + apply reach_perform, Hreach.
    + rewrite perform_keeps_token by assumption. exact Htok.
    + split; [|exact Hfinal].
      exists (request :: sent). unfold run; fold run. rewrite Hs, Hw, <- app_assoc.
      repeat split; simpl; [congruence|]. constructor; [|exact Hall].
      rewrite Hh, Htok. simpl.
      destruct (String.eqb_spec token' EmptyString); [contradiction | reflexivity].
Qed.

(** X7.  Once a reply of status 401 has come back, the credential is gone
    for good: in any run that follows, every request up to and including the
    next [login] leaves without an Authorization header. *)
Theorem after_unauthorized_requests_are_anonymous env (backend : Backend) op ops last this :
  reachable env this ->
  Forall (fun op => op <> Login) ops ->
  exists request,
    wire (perform op (backend op) this).2 = wire this ++ [request] /\
    forall body,
      backend op (wire this) request = Responded 401 body ->
      sends_unauthenticated backend (ops ++ [last]) (perform op (backend op) this).2.
Proof.
  intros Hreach Hops. destruct (perform_complete backend op this) as (call & _ & H).
  exists (outgoing this call). split; [apply perform_wire, H|].
  intros body Hreply. apply (run_then_one_unauthenticated env).
  - apply reach_perform, Hreach.
  - cbv zeta in H. rewrite Hreply in H. simpl in H. rewrite H. reflexivity.
  - exact Hops.
Qed.

(** X8.  While a non-empty token is set and no reply has status 401, the
    token stays and every request of a run without [login] carries it as
    [Authorization: Bearer <token>]. *)
Theorem token_is_carried_by_every_request env (backend : Backend) token' ops this :
  reachable env this ->
  token this = Some token' ->
  token' <> EmptyString ->
  never_unauthorized backend ->
  Forall (fun op => op <> Login) ops ->
  sends_bearer backend token' ops this /\
  token (run backend ops this) = Some token'.
Proof.
  intros Hreach Htok Hne Hnever Hops.
  exact (run_bearer env backend token' ops Hnever Hne Hops this Hreach Htok).
Qed.


(** ** The component of App.tsx *)

Lemma healthCheck_complete (net : Network HealthResponse) this :
  healthCheck net this =
    let request := outgoing this (get_config "/health" None) in
    match settle request (net (wire this) request) with
    | Fulfilled response' => (Fulfilled (data response'), send request this)
    | Rejected error =>
        (Rejected error,
         if is_401 error then teardown (send request this) else send request this)
    end.
Proof. open_call. case_settle; reflexivity. Qed.

Lemma login_complete (net : Network AuthResponse) this :
  login net this =
    let request := outgoing this (post_config "/auth/login" None) in
    match settle request (net (wire this) request) with
    | Fulfilled response' =>
        (Fulfilled (data response'),
         setToken (access_token (data response')) (send request this))
    | Rejected error =>
        (Rejected error,
         if is_401 error then teardown (send request this) else send request this)
    end.
Proof. open_call. case_settle; reflexivity. Qed.

Ltac unfold_component :=
  unfold checkAuth, handleLogin, handleLogout, try_finally, try_catch, await,
    on_service, on_app, sync, resolve; simpl.

(** X10.  Start-up with nothing to verify: when local storage holds no
    token, or the empty string, [checkAuth] sends no request, leaves the
    service as it is, and ends with the application not authenticated and no
    longer loading. *)
Theorem checkAuth_without_token_stays_local (net : Network HealthResponse) app this :
  truthy (localStorage this !! "auth_token") = false ->
  (checkAuth net (app, this)).1 = Fulfilled tt /\
  (checkAuth net (app, this)).2.2 = this /\
  isAuthenticated (checkAuth net (app, this)).2.1 = Some false /\
  isLoading (checkAuth net (app, this)).2.1 = false /\
  console (checkAuth net (app, this)).2.1 = console app.
Proof.
  intros Hfalsy. unfold_component. unfold localStorage_getItem.
  destruct (localStorage this !! "auth_token") as [t|]; simpl in *; [|repeat split].
  rewrite Hfalsy. repeat split.
Qed.

Lemma checkAuth_with_token env (net : Network HealthResponse) app this token' :
  reachable env this ->
  localStorage this !! "auth_token" = Some token' ->
  token' <> EmptyString ->
  exists request,
    wire (checkAuth net (app, this)).2.2 = wire this ++ [request] /\
    method request = Some GET /\
    url request = Some "/health" /\
    headers request !! "Authorization" = Some ("Bearer " +:+ token') /\
    forall status' body,
      net (wire this) request = Responded status' body ->
      validateStatus status' = true ->
      isAuthenticated (checkAuth net (app, this)).2.1 = Some true /\
      isLoading (checkAuth net (app, this)).2.1 = false /\
      console (checkAuth net (app, this)).2.1 = console app /\
      token (checkAuth net (app, this)).2.2 = Some token' /\
      localStorage (checkAuth net (app, this)).2.2 = localStorage this /\
      location_href (checkAuth net (app, this)).2.2 = location_href this.
Proof.
  intros Hreach Hstored Hne.
  pose proof (reachable_client env this Hreach) as Hclient.
  assert (Htruthy : negb (String.eqb token' EmptyString) = true).
  { destruct (String.eqb_spec token' EmptyString); [contradiction|reflexivity]. }
  set (request := outgoing (setToken token' this) (get_config "/health" None)).
  exists request.
  destruct (outgoing_route (setToken token' this) (get_config "/health" None))
    as (Hm & Hu & _).
  assert (Hwire : wire (checkAuth net (app, this)).2.2 = wire this ++ [request]).
  { unfold_component. unfold localStorage_getItem. rewrite Hstored, Htruthy.
    rewrite healthCheck_complete. cbv zeta. fold request. simpl.
    destruct (settle _ _); simpl; [reflexivity|]. destruct (is_401 _); reflexivity. }
  split; [exact Hwire|]. split; [exact Hm|]. split; [exact Hu|]. split.
  - unfold request. rewrite outgoing_authorization.
    + simpl. rewrite Htruthy. reflexivity.
    + apply lookup_empty.
    + simpl. rewrite Hclient. reflexivity.
  - intros status' body Hreply Hok.
    unfold_component. unfold localStorage_getItem. rewrite Hstored, Htruthy.
    rewrite healthCheck_complete. cbv zeta. fold request. simpl.
    rewrite Hreply, settle_responded, Hok. simpl.
    repeat split. apply insert_id. exact Hstored.
Qed.

(** X11.  Start-up with a stored token: [checkAuth] sends one request, the
    health check, carrying the stored token; when it is accepted the
    application ends authenticated and no longer loading, and the token is
    kept in memory and in storage. *)
Theorem checkAuth_verifies_the_stored_token env (net : Network HealthResponse)
    app this token' :
  reachable env this ->
  localStorage this !! "auth_token" = Some token' ->
  token' <> EmptyString ->
  exists request,
    wire (checkAuth net (app, this)).2.2 = wire this ++ [request] /\
    method request = Some GET /\
    url request = Some "/health" /\
    headers request !! "Authorization" = Some ("Bearer " +:+ token') /\
    forall status' body,
      net (wire this) request = Responded status' body ->
      validateStatus status' = true ->
      isAuthenticated (checkAuth net (app, this)).2.1 = Some true /\
      isLoading (checkAuth net (app, this)).2.1 = false /\
      console (checkAuth net (app, this)).2.1 = console app /\
      token (checkAuth net (app, this)).2.2 = Some token' /\
      localStorage (checkAuth net (app, this)).2.2 = localStorage this /\
      location_href (checkAuth net (app, this)).2.2 = location_href this.
Proof. exact (checkAuth_with_token env net app this token'). Qed.

(** X12.  Start-up with a stored token that cannot be verified: when the
    health check is rejected for any reason (401, another status, or no
    response at all) [checkAuth] logs the failure and clears the session: the
    application ends not authenticated, the token is null and the key is gone
    from storage. *)
Theorem checkAuth_signs_out_on_any_failure (net : Network HealthResponse)
    app this token' :
  localStorage this !! "auth_token" = Some token' ->
  token' <> EmptyString ->
  exists request,
    wire (checkAuth net (app, this)).2.2 = wire this ++ [request] /\
    forall error,
      settle request (net (wire this) request) = Rejected error ->
      (checkAuth net (app, this)).1 = Fulfilled tt /\
      isAuthenticated (checkAuth net (app, this)).2.1 = Some false /\
      isLoading (checkAuth net (app, this)).2.1 = false /\
      console (checkAuth net (app, this)).2.1 = console app ++ ["Auth check failed:"] /\
      token (checkAuth net (app, this)).2.2 = None /\
      localStorage (checkAuth net (app, this)).2.2 = delete "auth_token" (localStorage this).
Proof.
  intros Hstored Hne.
  assert (Htruthy : negb (String.eqb token' EmptyString) = true).
  { destruct (String.eqb_spec token' EmptyString); [contradiction|reflexivity]. }
  set (request := outgoing (setToken token' this) (get_config "/health" None)).
  exists request. split.
  - unfold_component. unfold localStorage_getItem. rewrite Hstored, Htruthy.
    rewrite healthCheck_complete. cbv zeta. fold request. simpl.
    destruct (settle _ _); simpl; [reflexivity|]. destruct (is_401 _); reflexivity.
  - intros error Hsettle.
    unfold_component. unfold localStorage_getItem. rewrite Hstored, Htruthy.
    rewrite healthCheck_complete. cbv zeta. fold request. simpl.
    rewrite Hsettle. simpl.
    destruct (is_401 error); simpl; repeat split;
      rewrite ?delete_delete_eq; apply delete_insert_eq.
Qed.

(** X13.  [handleLogin] never rejects, and the flag it sets follows the
    outcome of [login]: accepted, the application is authenticated and the
    issued token is in memory and in storage; rejected, the failure is logged
    and the application is not authenticated, the token being cleared only
    by a 401. *)
Theorem handleLogin_follows_the_login_outcome (net : Network AuthResponse) app this :
  (handleLogin net (app, this)).1 = Fulfilled tt /\
  isLoading (handleLogin net (app, this)).2.1 = isLoading app /\
  exists request,
    wire (handleLogin net (app, this)).2.2 = wire this ++ [request] /\
    (forall status' auth,
       net (wire this) request = Responded status' auth ->
       validateStatus status' = true ->
       isAuthenticated (handleLogin net (app, this)).2.1 = Some true /\
       console (handleLogin net (app, this)).2.1 = console app /\
       token (handleLogin net (app, this)).2.2 = Some (access_token auth) /\
       localStorage (handleLogin net (app, this)).2.2 !! "auth_token" =
         Some (access_token auth)) /\
    (forall error,
       settle request (net (wire this) request) = Rejected error ->
       isAuthenticated (handleLogin net (app, this)).2.1 = Some false /\
       console (handleLogin net (app, this)).2.1 = console app ++ ["Login failed:"] /\
       token (handleLogin net (app, this)).2.2 =
         (if is_401 error then None else token this) /\
       localStorage (handleLogin net (app, this)).2.2 =
         (if is_401 error then delete "auth_token" (localStorage this)
          else localStorage this)).
Proof.
  set (request := outgoing this (post_config "/auth/login" None)).
  split; [|split]; [| |exists request; split; [|split]].
  - unfold_component. rewrite login_complete. cbv zeta. fold request.
    destruct (settle _ _); reflexivity.
  - unfold_component. rewrite login_complete. cbv zeta. fold request.
    destruct (settle _ _); reflexivity.
  - unfold_component. rewrite login_complete. cbv zeta. fold request.
    destruct (settle _ _); simpl; [reflexivity|]. destruct (is_401 _); reflexivity.
  - intros status' auth Hreply Hok.
    unfold_component. rewrite login_complete. cbv zeta. fold request.
    rewrite Hreply, settle_responded, Hok. simpl.
    repeat split. apply lookup_insert_eq.
  - intros error Hsettle.
    unfold_component. rewrite login_complete. cbv zeta. fold request.
    rewrite Hsettle. simpl. destruct (is_401 error); repeat split.
Qed.

(** X14.  Logging out is local: [handleLogout] sends nothing, marks the
    application not authenticated, and removes the token from memory and from
    storage, so that every request after it, up to and including the next
    [login], leaves without a credential. *)
Theorem handleLogout_is_local env (backend : Backend) ops last app this :
  reachable env this ->
  Forall (fun op => op <> Login) ops ->
  wire (handleLogout (app, this)).2 = wire this /\
  isAuthenticated (handleLogout (app, this)).1 = Some false /\
  token (handleLogout (app, this)).2 = None /\
  localStorage (handleLogout (app, this)).2 !! "auth_token" = None /\
  sends_unauthenticated backend (ops ++ [last]) (handleLogout (app, this)).2.
Proof.
  intros Hreach Hops. unfold handleLogout; simpl.
  repeat split; [apply lookup_delete_eq|].
  apply (run_then_one_unauthenticated env);
    [apply reach_clearToken, Hreach | reflexivity | exact Hops].
Qed.

Lemma login_fulfilled (net : Network AuthResponse) this auth :
  (login net this).1 = Fulfilled auth ->
  (login net this).2 =
    setToken (access_token auth) (send (outgoing this (post_config "/auth/login" None)) this).
Proof.
  rewrite login_complete. cbv zeta. destruct (settle _ _) as [r|e]; simpl.
  - intros [= <-]. reflexivity.
  - discriminate.
Qed.

Lemma reachable_login env (net : Network AuthResponse) this :
  reachable env this -> reachable env (login net this).2.
Proof.
  intros Hreach.
  exact (reach_perform env
           (fun op => match op return Network (ResponseData op) with
                      | Login => net
                      | op => offline op
                      end) Login this Hreach).
Qed.

Lemma handleLogin_fulfilled (net : Network AuthResponse) app this auth :
  (login net this).1 = Fulfilled auth ->
  handleLogin net (app, this) =
    (Fulfilled tt, (setIsAuthenticated true app, (login net this).2)).
Proof.
  unfold_component. destruct (login net this) as [[r|e] this']; simpl.
  - reflexivity.
  - discriminate.
Qed.

(** X15.  A login survives a reload: after [handleLogin] succeeds with a
    non-empty token, a service constructed over the storage it leaves starts
    with that token, and [checkAuth] on the fresh component sends one health
    check carrying it and, when that is accepted, ends authenticated. *)
Theorem login_survives_a_reload env env' href (net : Network AuthResponse)
    (net' : Network HealthResponse) app this auth :
  reachable env this ->
  (login net this).1 = Fulfilled auth ->
  access_token auth <> EmptyString ->
  let reloaded :=
    constructor env' (localStorage (handleLogin net (app, this)).2.2) href in
  token reloaded = Some (access_token auth) /\
  exists request,
    wire (checkAuth net' (App_initial, reloaded)).2.2 = [request] /\
    headers request !! "Authorization" = Some ("Bearer " +:+ access_token auth) /\
    forall status' body,
      net' [] request = Responded status' body ->
      validateStatus status' = true ->
      isAuthenticated (checkAuth net' (App_initial, reloaded)).2.1 = Some true /\
      isLoading (checkAuth net' (App_initial, reloaded)).2.1 = false /\
      token (checkAuth net' (App_initial, reloaded)).2.2 = Some (access_token auth).
Proof.
  intros Hreach Hlogin Hne. cbv zeta.
  rewrite (handleLogin_fulfilled net app this auth Hlogin). simpl.
  rewrite (login_fulfilled net this auth Hlogin).
  set (reloaded := constructor env' _ href).
  assert (Hstored : localStorage reloaded !! "auth_token" = Some (access_token auth))
    by apply lookup_insert_eq.
  split; [exact Hstored|].
  destruct (checkAuth_with_token env' net' App_initial reloaded (access_token auth))
    as (request & Hw & _ & _ & Hh & H);
    [apply reach_constructor | exact Hstored | exact Hne |].
  exists request. split; [exact Hw|]. split; [exact Hh|].
  intros status' body Hreply Hok.
  destruct (H status' body Hreply Hok) as (Ha & Hl & _ & Ht & _).
  repeat split; assumption.
Qed.

(** X16.  The flag and the credential can disagree: when the server's login
    answer carries an empty token, [handleLogin] still marks the application
    authenticated, while every request that follows leaves without a
    credential; after a reload [checkAuth] finds nothing to verify. *)
Theorem empty_issued_token_authenticates_without_credential env env' href
    (net : Network AuthResponse) (net' : Network HealthResponse)
    (backend : Backend) ops last app this auth :
  reachable env this ->
  (login net this).1 = Fulfilled auth ->
  access_token auth = EmptyString ->
  Forall (fun op => op <> Login) ops ->
  let signed := (handleLogin net (app, this)).2 in
  let reloaded := constructor env' (localStorage signed.2) href in
  isAuthenticated signed.1 = Some true /\
  sends_unauthenticated backend (ops ++ [last]) signed.2 /\
  isAuthenticated (checkAuth net' (App_initial, reloaded)).2.1 = Some false /\
  wire (checkAuth net' (App_initial, reloaded)).2.2 = [].
Proof.
  intros Hreach Hlogin Hempty Hops. cbv zeta.
  rewrite (handleLogin_fulfilled net app this auth Hlogin). simpl.
  rewrite (login_fulfilled net this auth Hlogin), Hempty.
  split; [reflexivity|]. split.
  - apply (run_then_one_unauthenticated env); [|reflexivity|exact Hops].
    pose proof (reachable_login env net this Hreach) as Hr.
    rewrite (login_fulfilled net this auth Hlogin), Hempty in Hr. exact Hr.
  - unfold_component. unfold constructor, localStorage_getItem. simpl.
    rewrite lookup_insert_eq. simpl. split; reflexivity.
Qed.

(** ** The other handlers of the settings page *)

(** X17.  Deleting needs the user's consent: when [confirm] answers no,
    [handleDelete] changes nothing and sends nothing; when it answers yes,
    one DELETE for that id leaves, the form is not touched, and the list is
    invalidated only if the server accepts. *)
Theorem handleDelete_asks_first (confirm : string -> bool) (backend : Backend) id page this :
  (confirm "Are you sure you want to delete this data source?" = false ->
     handleDelete confirm backend id (page, this) = (page, this)) /\
  (confirm "Are you sure you want to delete this data source?" = true ->
     exists request,
       wire (handleDelete confirm backend id (page, this)).2 = wire this ++ [request] /\
       method request = Some DELETE /\
       url request = Some ("/data-sources/" +:+ Number_toString id) /\
       formData (handleDelete confirm backend id (page, this)).1 = formData page /\
       editingSource (handleDelete confirm backend id (page, this)).1 = editingSource page /\
       showAddForm (handleDelete confirm backend id (page, this)).1 = showAddForm page /\
       (forall status' body,
          backend (DeleteDataSource id) (wire this) request = Responded status' body ->
          validateStatus status' = true ->
          invalidated (handleDelete confirm backend id (page, this)).1 =
            invalidated page ++ ["data-sources"]) /\
       (forall error,
          settle request (backend (DeleteDataSource id) (wire this) request) =
            Rejected error ->
          invalidated (handleDelete confirm backend id (page, this)).1 = invalidated page)).
Proof.
  split.
  - intros Hno. unfold handleDelete. rewrite Hno. reflexivity.
  - intros Hyes.
    set (call := delete_config ("/data-sources/" +:+ Number_toString id)).
    exists (outgoing this call).
    destruct (outgoing_route this call) as (Hm & Hu & _).
    unfold handleDelete. rewrite Hyes. unfold deleteMutation, mutate. simpl.
    open_call. fold call.
    split; [case_settle; [reflexivity | destruct (is_401 _); reflexivity]|].
    split; [exact Hm|]. split; [exact Hu|].
    split; [case_settle; reflexivity|].
    split; [case_settle; reflexivity|].
    split; [case_settle; reflexivity|].
    split.
    + intros status' body Hreply Hok. cbn [ResponseData] in Hreply.
      rewrite Hreply, settle_responded, Hok. reflexivity.
    + intros error Hsettle. cbn [ResponseData] in Hsettle.
      rewrite Hsettle. reflexivity.
Qed.

(** X18.  Saving a new source: when the server accepts, the form is reset
    and hidden and the list is invalidated; when the request is rejected, the
    form stays open with everything the user typed and nothing is
    invalidated. *)
Theorem create_keeps_the_form_on_failure (backend : Backend) page this config' :
  JSON_parse (FormData_config (formData page)) = Some config' ->
  editingSource page = None ->
  let dataSource := spread_formData (formData page) config' in
  let after := handleSubmit backend (page, this) in
  exists request,
    wire after.2 = wire this ++ [request] /\
    (forall status' body,
       backend (CreateDataSource dataSource) (wire this) request = Responded status' body ->
       validateStatus status' = true ->
       showAddForm after.1 = false /\
       formData after.1 = {| FormData_name := EmptyString; FormData_type := logs;
                             FormData_config := "{}"; FormData_enabled := true |} /\
       invalidated after.1 = invalidated page ++ ["data-sources"]) /\
    (forall error,
       settle request (backend (CreateDataSource dataSource) (wire this) request) =
         Rejected error ->
       showAddForm after.1 = showAddForm page /\
       formData after.1 = formData page /\
       editingSource after.1 = None /\
       invalidated after.1 = invalidated page).
Proof.
  intros Hparse Hnew. cbv zeta.
  set (call := post_config "/data-sources"
                 (Some (JObject (spread_formData (formData page) config')))).
  exists (outgoing this call).
  unfold handleSubmit. simpl. rewrite Hparse, Hnew.
  unfold createMutation, mutate. simpl. open_call. fold call.
  split; [case_settle; [reflexivity | destruct (is_401 _); reflexivity]|].
  split.
  - intros status' body Hreply Hok. cbn [ResponseData] in Hreply.
    rewrite Hreply, settle_responded, Hok. repeat split.
  - intros error Hsettle. cbn [ResponseData] in Hsettle.
    rewrite Hsettle. simpl. repeat split. exact Hnew.
Qed.

(** X19.  Saving an edited source: when the server accepts, the edit ends
    (no source is under edit), the form is reset and the list is invalidated,
    but the form is not hidden: it stays as shown as it was; when the request
    is rejected, the source stays under edit with the form as typed. *)
Theorem update_leaves_the_form_shown (backend : Backend) page this config' source :
  JSON_parse (FormData_config (formData page)) = Some config' ->
  editingSource page = Some source ->
  let dataSource := spread_formData (formData page) config' in
  let after := handleSubmit backend (page, this) in
  exists request,
    wire after.2 = wire this ++ [request] /\
    (forall status' body,
       backend (UpdateDataSource (DataSource_id source) dataSource) (wire this) request =
         Responded status' body ->
       validateStatus status' = true ->
       editingSource after.1 = None /\
       showAddForm after.1 = showAddForm page /\
       formData after.1 = {| FormData_name := EmptyString; FormData_type := logs;
                             FormData_config := "{}"; FormData_enabled := true |} /\
       invalidated after.1 = invalidated page ++ ["data-sources"]) /\
    (forall error,
       settle request
         (backend (UpdateDataSource (DataSource_id source) dataSource) (wire this) request) =
         Rejected error ->
       editingSource after.1 = Some source /\
       showAddForm after.1 = showAddForm page /\
       formData after.1 = formData page /\
       invalidated after.1 = invalidated page).
Proof.
  intros Hparse Hedit. cbv zeta.
  set (call := put_config ("/data-sources/" +:+ Number_toString (DataSource_id source))
                 (Some (JObject (spread_formData (formData page) config')))).
  exists (outgoing this call).
  unfold handleSubmit. simpl. rewrite Hparse, Hedit.
  unfold updateMutation, mutate. simpl. open_call. fold call.
  split; [case_settle; [reflexivity | destruct (is_401 _); reflexivity]|].
  split.
  - intros status' body Hreply Hok. cbn [ResponseData] in Hreply.
    rewrite Hreply, settle_responded, Hok. repeat split.
  - intros error Hsettle. cbn [ResponseData] in Hsettle.
    rewrite Hsettle. simpl. repeat split. exact Hedit.
Qed.

(** X20.  Edit, then submit: after [handleEdit] on a source, submitting the
    form as it was filled sends an update for that source's id, never a
    create, with the source's name, type and enabled flag and with whatever
    [JSON.parse] reads back from the stringified config. *)
Theorem edit_then_submit_updates_that_source (backend : Backend) source page this config' :
  JSON_parse (JSON_stringify (JObject (DataSource_config source)) 2) = Some config' ->
  exists request,
    wire (handleSubmit backend (handleEdit source page, this)).2 = wire this ++ [request] /\
    method request = Some PUT /\
    url request = Some ("/data-sources/" +:+ Number_toString (DataSource_id source)) /\
    payload request =
      Some (JObject [("name", JString (DataSource_name source));
                     ("type", JString (DataSourceType_literal (DataSource_type source)));
                     ("config", config');
                     ("enabled", JBool (DataSource_enabled source))]) /\
    alerts (handleSubmit backend (handleEdit source page, this)).1 = alerts page.
Proof.
  intros Hparse.
  set (call := put_config ("/data-sources/" +:+ Number_toString (DataSource_id source))
                 (Some (JObject
                          [("name", JString (DataSource_name source));
                           ("type", JString (DataSourceType_literal (DataSource_type source)));
                           ("config", config');
                           ("enabled", JBool (DataSource_enabled source))]))).
  exists (outgoing this call).
  destruct (outgoing_route this call) as (Hm & Hu & _ & Hd & _).
  unfold handleSubmit, handleEdit. simpl. rewrite Hparse.
  unfold updateMutation, mutate, spread_formData. simpl. open_call. fold call.
  split; [case_settle; [reflexivity | destruct (is_401 _); reflexivity]|].
  split; [exact Hm|]. split; [exact Hu|]. split; [exact Hd|].
  case_settle; reflexivity.
Qed.

(** X21.  "Add" and "Cancel" end an edit: after either of them, whatever
    was under edit, a submit of the reset form creates a source (POST) and
    does not update the one that was open. *)
Theorem add_or_cancel_ends_the_edit (backend : Backend) source page this config' :
  JSON_parse "{}" = Some config' ->
  editingSource (onClick_add (handleEdit source page)) = None /\
  editingSource (onClick_cancel (handleEdit source page)) = None /\
  showAddForm (onClick_cancel (handleEdit source page)) = false /\
  exists request,
    wire (handleSubmit backend (onClick_add (handleEdit source page), this)).2 =
      wire this ++ [request] /\
    method request = Some POST /\
    url request = Some "/data-sources" /\
    payload request =
      Some (JObject [("name", JString EmptyString); ("type", JString "logs");
                     ("config", config'); ("enabled", JBool true)]).
Proof.
  intros Hparse. split; [reflexivity|]. split; [reflexivity|]. split; [reflexivity|].
  set (call := post_config "/data-sources"
                 (Some (JObject [("name", JString EmptyString); ("type", JString "logs");
                                 ("config", config'); ("enabled", JBool true)]))).
  exists (outgoing this call).
  destruct (outgoing_route this call) as (Hm & Hu & _ & Hd & _).
  unfold handleSubmit, onClick_add, handleEdit. simpl. rewrite Hparse.
  unfold createMutation, mutate, spread_formData. simpl. open_call. fold call.
  split; [case_settle; [reflexivity | destruct (is_401 _); reflexivity]|].
  split; [exact Hm|]. split; [exact Hu|]. exact Hd.
Qed.

(** ** The stat cards *)

Lemma card_count_cons {A} (field : A -> string) x items literal :
  card_count field (Some (x :: items)) literal =
    ((if String.eqb (field x) literal then 1 else 0) +
     card_count field (Some items) literal)%nat.
Proof.
  unfold card_count. rewrite filter_cons.
  destruct (decide (String.eqb (field x) literal = true)) as [->|Hn].
  - reflexivity.
  - destruct (String.eqb (field x) literal); [contradiction|reflexivity].
Qed.

(** X22.  The stat cards account for every row exactly once: on the
    anomalies, logs and pipelines pages the counts shown on the cards add up
    to the number of rows received, and all cards show 0 while there is no
    data. *)
Theorem stat_cards_partition_the_rows
    (anomalies' : list Anomaly) (logs' : list LogEntry) (pipelines : list CICDPipeline) :
  (foldr (fun card total => (card.2 + total)%nat) 0%nat (severity_cards (Some anomalies'))
     = length anomalies' /\
   foldr (fun card total => (card.2 + total)%nat) 0%nat (level_cards (Some logs'))
     = length logs' /\
   foldr (fun card total => (card.2 + total)%nat) 0%nat (status_cards (Some pipelines))
     = length pipelines) /\
  (Forall (fun card => card.2 = 0%nat) (severity_cards None) /\
   Forall (fun card => card.2 = 0%nat) (level_cards None) /\
   Forall (fun card => card.2 = 0%nat) (status_cards None)).
Proof.
  split; [split; [|split]|].
  - unfold severity_cards. cbn [map foldr snd].
    induction anomalies' as [|a l IH]; [reflexivity|].
    rewrite !card_count_cons. cbn [length]. rewrite <- IH.
    destruct (Anomaly_severity a); simpl; lia.
  - unfold level_cards. cbn [map foldr snd].
    induction logs' as [|a l IH]; [reflexivity|].
    rewrite !card_count_cons. cbn [length]. rewrite <- IH.
    destruct (LogEntry_level a); simpl; lia.
  - unfold status_cards. cbn [map foldr snd].
    induction pipelines as [|a l IH]; [reflexivity|].
    rewrite !card_count_cons. cbn [length]. rewrite <- IH.
    destruct (CICDPipeline_status a); simpl; lia.
  - repeat split; repeat constructor.
Qed.

(** ** The login page, the insights and the chat *)

Lemma handleLogin_never_rejects (net : Network AuthResponse) app this :
  (handleLogin net (app, this)).1 = Fulfilled tt.
Proof.
  unfold_component. rewrite login_complete. cbv zeta.
  destruct (settle _ _); reflexivity.
Qed.

(** X23.  The login button only adds the spinner: wired to [handleLogin] of
    App.tsx, which never rejects, the page's own [catch] never runs, so a
    failed login is logged once, and the page ends not loading with exactly
    the state [handleLogin] leaves. *)
Theorem login_button_adds_only_the_spinner (net : Network AuthResponse) loading app this :
  Login_handleLogin (fun label st => (console_error label st.1, st.2))
    (handleLogin net) (loading, (app, this)) =
    (Fulfilled tt, (false, (handleLogin net (app, this)).2)).
Proof.
  unfold Login_handleLogin, try_finally, try_catch. simpl.
  pose proof (handleLogin_never_rejects net app this) as Hnever.
  destruct (handleLogin net (app, this)) as [[[]|e] st']; simpl in *.
  - reflexivity.
  - discriminate Hnever.
Qed.


Lemma processConversationalQuery_complete (net : Network ConversationalQueryResponse)
    query this :
  processConversationalQuery net query this =
    let request :=
      outgoing this (post_config "/ai-agents/conversational-query" (Some (JObject query))) in
    match settle request (net (wire this) request) with
    | Fulfilled response' => (Fulfilled (data response'), send request this)
    | Rejected error =>
        (Rejected error,
         if is_401 error then teardown (send request this) else send request this)
    end.
Proof. open_call. case_settle; reflexivity. Qed.

Ltac unfold_chat :=
  unfold handleSendMessage, try_finally, try_catch, await, raising, in_service, in_page,
    call_onInsightGenerated, reject, resolve.

(** X25.  Nothing is sent for a blank message or while a reply is awaited:
    when the input is empty after trimming, or the chat is loading,
    [handleSendMessage] leaves the chat and the service as they are. *)
Theorem blank_or_busy_sends_nothing (net : Network ConversationalQueryResponse)
    onInsightGenerated clock chat this :
  String_trim (input chat) = EmptyString \/ Chat_isLoading chat = true ->
  handleSendMessage net onInsightGenerated clock (chat, this) = (Fulfilled tt, (chat, this)).
Proof.
  intros Hguard. unfold handleSendMessage, resolve. simpl.
  destruct Hguard as [-> | ->]; [reflexivity|].
  rewrite orb_true_r. reflexivity.
Qed.

Lemma guard_passes chat :
  String_trim (input chat) <> EmptyString ->
  Chat_isLoading chat = false ->
  String.eqb (String_trim (input chat)) EmptyString || Chat_isLoading chat = false.
Proof.
  intros Hne ->. rewrite orb_false_r. apply String.eqb_neq. exact Hne.
Qed.

(** The effect of [handleSendMessage] past its guard, outcome by outcome. *)
Lemma handleSendMessage_complete (net : Network ConversationalQueryResponse)
    onInsightGenerated clock chat this :
  String_trim (input chat) <> EmptyString ->
  Chat_isLoading chat = false ->
  let userMessage :=
    {| Message_id := user_id clock; Message_content := input chat;
       Message_sender := user; Message_timestamp := user_time clock;
       Message_metadata := None |} in
  let errorMessage :=
    {| Message_id := error_id clock;
       Message_content :=
         "Sorry, I encountered an error while processing your request. Please try again later.";
       Message_sender := bot; Message_timestamp := error_time clock;
       Message_metadata := None |} in
  let request :=
    outgoing this
      (post_config "/ai-agents/conversational-query"
         (Some (JObject
            [("query", JString (input chat));
             ("context",
              JObject [("previous_messages",
                        JArray (map Message_any (slice_last 5 (messages chat))));
                       ("timestamp", JString (request_time clock))])]))) in
  handleSendMessage net onInsightGenerated clock (chat, this) =
    match settle request (net (wire this) request) with
    | Fulfilled response' =>
        let botMessage :=
          {| Message_id := reply_id clock;
             Message_content :=
               or_string (response (result (data response')))
                 "I apologize, but I couldn't process your request. Please try again.";
             Message_sender := bot; Message_timestamp := reply_time clock;
             Message_metadata :=
               Some (ConversationalQueryResponse_metadata (data response')) |} in
        match insights (result (data response')), onInsightGenerated with
        | Some insights', Some callback =>
            (Fulfilled tt,
             ({| messages :=
                   messages chat ++ [userMessage; botMessage] ++
                   match callback insights' with
                   | returns => []
                   | throws => [errorMessage]
                   end;
                 input := EmptyString; Chat_isLoading := false;
                 notified := notified chat ++ [insights'] |},
              send request this))
        | _, _ =>
            (Fulfilled tt,
             ({| messages := messages chat ++ [userMessage; botMessage];
                 input := EmptyString; Chat_isLoading := false;
                 notified := notified chat |},
              send request this))
        end
    | Rejected error =>
        (Fulfilled tt,
         ({| messages := messages chat ++ [userMessage; errorMessage];
             input := EmptyString; Chat_isLoading := false;
             notified := notified chat |},
          if is_401 error then teardown (send request this) else send request this))
    end.
Proof.
  intros Hne Hidle. cbv zeta.
  unfold_chat. simpl. rewrite (guard_passes chat Hne Hidle).
  rewrite processConversationalQuery_complete. cbv zeta.
  destruct (settle _ _) as [r|e]; simpl.
  - destruct (insights (result (data r))) as [ins|];
      [destruct onInsightGenerated as [callback|]; [destruct (callback ins)|]|];
      unfold Chat_setIsLoading, notify, push_message, setInput; simpl;
      rewrite <- ?app_assoc; reflexivity.
  - unfold Chat_setIsLoading, push_message, setInput; simpl.
    rewrite <- app_assoc. reflexivity.
Qed.

(** X26.  One message, one request, and the replies: past the guard
    [handleSendMessage] never rejects, clears the input, ends not loading,
    and sends one POST to the conversational endpoint whose context holds the
    last five messages shown before this one (all of them when fewer).  It
    appends the user's message and then one bot message, or two: the second
    one is there exactly when the reply was accepted with insights and the
    callback the parent passed threw on them, the call being inside the
    [try]. *)
Theorem one_message_one_request_one_reply (net : Network ConversationalQueryResponse)
    onInsightGenerated clock chat this :
  String_trim (input chat) <> EmptyString ->
  Chat_isLoading chat = false ->
  let after := handleSendMessage net onInsightGenerated clock (chat, this) in
  after.1 = Fulfilled tt /\
  input after.2.1 = EmptyString /\
  Chat_isLoading after.2.1 = false /\
  exists request previous,
    wire after.2.2 = wire this ++ [request] /\
    method request = Some POST /\
    url request = Some "/ai-agents/conversational-query" /\
    payload request =
      Some (JObject [("query", JString (input chat));
                     ("context",
                      JObject [("previous_messages", JArray (map Message_any previous));
                               ("timestamp", JString (request_time clock))])]) /\
    previous `suffix_of` messages chat /\
    length previous = Nat.min 5 (length (messages chat)) /\
    exists replies,
      messages after.2.1 =
        messages chat ++
        {| Message_id := user_id clock; Message_content := input chat;
           Message_sender := user; Message_timestamp := user_time clock;
           Message_metadata := None |} :: replies /\
      Forall (fun reply => Message_sender reply = bot) replies /\
      (length replies = 1%nat \/ length replies = 2%nat) /\
      (length replies = 2%nat <->
       exists status' body insights' callback,
         net (wire this) request = Responded status' body /\
         validateStatus status' = true /\
         insights (result body) = Some insights' /\
         onInsightGenerated = Some callback /\
         callback insights' = throws).
Proof.
  intros Hne Hidle. cbv zeta.
  rewrite (handleSendMessage_complete net onInsightGenerated clock chat this Hne Hidle).
  cbv zeta.
  set (query := [("query", JString (input chat));
                 ("context",
                  JObject [("previous_messages",
                            JArray (map Message_any (slice_last 5 (messages chat))));
                           ("timestamp", JString (request_time clock))])]).
  set (call := post_config "/ai-agents/conversational-query" (Some (JObject query))).
  destruct (outgoing_route this call) as (Hm & Hu & _ & Hd & _).
  assert (Hprev : slice_last 5 (messages chat) `suffix_of` messages chat /\
                  length (slice_last 5 (messages chat)) =
                    Nat.min 5 (length (messages chat))).
  { unfold slice_last. split; [apply suffix_drop|]. rewrite length_drop. lia. }
  destruct Hprev as (Hsuffix & Hlen).
  set (request := outgoing this call) in *.
  assert (Hsettle : forall status' body,
            net (wire this) request = Responded status' body ->
            validateStatus status' = true ->
            settle request (net (wire this) request) =
              Fulfilled {| data := body; status := status' |}).
  { intros status' body -> Hok. rewrite settle_responded, Hok. reflexivity. }
  assert (Haccepted : forall r,
            settle request (net (wire this) request) = Fulfilled r ->
            exists status', net (wire this) request = Responded status' (data r) /\
                            validateStatus status' = true).
  { intros r. destruct (net (wire this) request) as [status' body|] eqn:Hreply.
    - rewrite settle_responded. destruct (validateStatus status') eqn:Hok; [|discriminate].
      intros [= <-]. exists status'. split; [reflexivity | exact Hok].
    - discriminate. }
  destruct (settle request (net (wire this) request)) as [r|e] eqn:Hs; simpl.
  - destruct (Haccepted r eq_refl) as (status' & Hreply & Hok).
    destruct (insights (result (data r))) as [ins|] eqn:Hins;
      [destruct onInsightGenerated as [callback|];
       [destruct (callback ins) eqn:Hcall|]|];
      simpl; (split; [reflexivity|]); (split; [reflexivity|]); (split; [reflexivity|]);
      exists request, (slice_last 5 (messages chat));
      (split; [reflexivity|]); (split; [exact Hm|]); (split; [exact Hu|]);
      (split; [exact Hd|]); (split; [exact Hsuffix|]); (split; [exact Hlen|]);
      eexists; (split; [reflexivity|]); (split; [repeat constructor|]); simpl.
    + split; [left; reflexivity|]. split; [discriminate|].
      intros (s1 & b1 & i1 & c1 & H1 & _ & H3 & H4 & H5).
      rewrite Hreply in H1. injection H1 as <- <-. rewrite Hins in H3.
      injection H3 as <-. injection H4 as <-. congruence.
    + split; [right; reflexivity|]. split; [|reflexivity].
      intros _. exists status', (data r), ins, callback. repeat split; assumption.
    + split; [left; reflexivity|]. split; [discriminate|].
      intros (s1 & b1 & i1 & c1 & _ & _ & _ & H4 & _). discriminate H4.
    + split; [left; reflexivity|]. split; [discriminate|].
      intros (s1 & b1 & i1 & c1 & H1 & _ & H3 & _).
      rewrite Hreply in H1. injection H1 as <- <-. rewrite Hins in H3. discriminate H3.
  - split; [reflexivity|]. split; [reflexivity|]. split; [reflexivity|].
    exists request, (slice_last 5 (messages chat)).
    split; [destruct (is_401 e); reflexivity|]. split; [exact Hm|]. split; [exact Hu|].
    split; [exact Hd|]. split; [exact Hsuffix|]. split; [exact Hlen|].
    eexists. split; [reflexivity|]. split; [repeat constructor|]. simpl.
    split; [left; reflexivity|]. split; [discriminate|].
    intros (s1 & b1 & i1 & c1 & H1 & H2 & _).
    pose proof (Hsettle s1 b1 H1 H2) as Haccept. congruence.
Qed.

(** X27.  What the bot answers.  When the reply is accepted the first answer
    is the server's text, or an apology when that text is empty, with the
    reply's metadata; the parent's callback is called with the insights when
    the reply carries some and the prop was passed, and when that call throws
    the answer is followed by the error text, which is then the last message
    shown.  When the request is rejected the one answer is the error text and
    the callback is not called; a rejection with status 401 also ends the
    session. *)
Theorem the_reply_shown_follows_the_outcome (net : Network ConversationalQueryResponse)
    onInsightGenerated clock chat this :
  String_trim (input chat) <> EmptyString ->
  Chat_isLoading chat = false ->
  let after := handleSendMessage net onInsightGenerated clock (chat, this) in
  let errorMessage :=
    {| Message_id := error_id clock;
       Message_content :=
         "Sorry, I encountered an error while processing your request. Please try again later.";
       Message_sender := bot; Message_timestamp := error_time clock;
       Message_metadata := None |} in
  exists request,
    wire after.2.2 = wire this ++ [request] /\
    (forall status' body,
       net (wire this) request = Responded status' body ->
       validateStatus status' = true ->
       drop (S (length (messages chat))) (messages after.2.1) =
         {| Message_id := reply_id clock;
            Message_content :=
              if String.eqb (response (result body)) EmptyString
              then "I apologize, but I couldn't process your request. Please try again."
              else response (result body);
            Message_sender := bot; Message_timestamp := reply_time clock;
            Message_metadata := Some (ConversationalQueryResponse_metadata body) |} ::
         match insights (result body), onInsightGenerated with
         | Some insights', Some callback =>
             match callback insights' with
             | returns => []
             | throws => [errorMessage]
             end
         | _, _ => []
         end /\
       notified after.2.1 =
         notified chat ++
         match insights (result body), onInsightGenerated with
         | Some insights', Some _ => [insights']
         | _, _ => []
         end /\
       token after.2.2 = token this /\
       location_href after.2.2 = location_href this) /\
    (forall error,
       settle request (net (wire this) request) = Rejected error ->
       drop (S (length (messages chat))) (messages after.2.1) = [errorMessage] /\
       notified after.2.1 = notified chat /\
       token after.2.2 = (if is_401 error then None else token this) /\
       location_href after.2.2 = (if is_401 error then "/login" else location_href this)).
Proof.
  intros Hne Hidle. cbv zeta.
  rewrite (handleSendMessage_complete net onInsightGenerated clock chat this Hne Hidle).
  cbv zeta.
  set (query := [("query", JString (input chat));
                 ("context",
                  JObject [("previous_messages",
                            JArray (map Message_any (slice_last 5 (messages chat))));
                           ("timestamp", JString (request_time clock))])]).
  set (call := post_config "/ai-agents/conversational-query" (Some (JObject query))).
  set (request := outgoing this call).
  assert (Hdrop : forall (first : Message) rest,
            drop (S (length (messages chat))) (messages chat ++ first :: rest) = rest).
  { intros first rest.
    replace (messages chat ++ first :: rest) with ((messages chat ++ [first]) ++ rest)
      by (rewrite <- app_assoc; reflexivity).
    replace (S (length (messages chat))) with (length (messages chat ++ [first]))
      by (rewrite length_app; simpl; lia).
    apply drop_app_length. }
  exists request. split; [|split].
  - destruct (settle request _) as [r|e]; simpl.
    + destruct (insights (result (data r))) as [ins|];
        [destruct onInsightGenerated as [callback|]|]; reflexivity.
    + destruct (is_401 e); reflexivity.
  - intros status' body Hreply Hok. rewrite Hreply, settle_responded, Hok. simpl.
    unfold or_string.
    destruct (insights (result body)) as [ins|];
      [destruct onInsightGenerated as [callback|]|]; simpl;
      rewrite Hdrop, ?app_nil_r; repeat split.
  - intros error Hsettle. rewrite Hsettle. simpl. rewrite Hdrop.
    destruct (is_401 error); repeat split.
Qed.

End Facade.

(** ** Worked examples

    The results above at concrete inputs, over the reference runtime. *)

Local Abbreviation toString := Reference.Number_toString.
Local Abbreviation fresh :=
  (constructor (number := Reference.number) None ∅ "/dashboard").
Local Abbreviation signed_in := (setToken "tok-1" fresh).
Local Abbreviation kept := (<["auth_token" := "tok-0"]> ∅ : gmap string string).
Local Abbreviation restored :=
  (constructor (number := Reference.number) None kept "/dashboard").

Lemma fresh_reachable : reachable toString None fresh.
Proof. apply reach_constructor. Qed.

Lemma signed_in_reachable : reachable toString None signed_in.
Proof. apply reach_setToken, reach_constructor. Qed.

Example API_BASE_URL_fallback :
  API_BASE_URL None = "http://localhost:8000" /\
  API_BASE_URL (Some EmptyString) = "http://localhost:8000" /\
  API_BASE_URL (Some "https://api.example.org") = "https://api.example.org".
Proof. repeat split. Qed.

Example Number_toString_samples :
  map toString
    [Reference.integer 42; Reference.integer (-7);
     {| Reference.mantissa := 15; Reference.exponent := -1 |};
     {| Reference.mantissa := 1; Reference.exponent := 21 |};
     {| Reference.mantissa := 12; Reference.exponent := -7 |};
     {| Reference.mantissa := 1; Reference.exponent := -7 |}] =
  ["42"; "-7"; "1.5"; "1e+21"; "0.0000012"; "1e-7"].
Proof. reflexivity. Qed.

Example JSON_parse_samples :
  Reference.JSON_parse " [1.5, true, null, [ ], {}] " =
    Some (JArray [JNumber {| Reference.mantissa := 15; Reference.exponent := -1 |};
                  JBool true; JNull; JArray []; JObject []]) /\
  map Reference.JSON_parse ["{"; "[1,]"; "01"; "{} {}"; "nul"; EmptyString] =
    [None; None; None; None; None; None].
Proof. split; reflexivity. Qed.

(** The whole request of a health check issued while signed in. *)
Example healthCheck_request :
  wire (healthCheck (health_backend 200 HealthCheck) signed_in).2 =
    [ {| baseURL := Some "http://localhost:8000";
         timeout := Some 10000;
         headers := {[ "Authorization" := "Bearer tok-1";
                       "Content-Type" := "application/json" ]};
         method := Some GET;
         url := Some "/health";
         params := None;
         payload := None |} ].
Proof. vm_compute. reflexivity. Qed.

(** No token, then [login()], then [healthCheck()]: the token is set and
    persisted, the health check is fulfilled, carries the token, and the
    session is still there. *)
Example login_then_healthCheck :
  let after_login := (perform toString Login (live_backend "tok-2" Login) fresh).2 in
  let outcome := perform toString HealthCheck (live_backend "tok-2" HealthCheck) after_login in
  token fresh = None /\
  token after_login = Some "tok-2" /\
  localStorage after_login !! "auth_token" = Some "tok-2" /\
  outcome.1 = Fulfilled {| HealthResponse_status := "ok"; service := "analytics";
                           version := "1.0.0" |} /\
  (fun request => headers request !! "Authorization") <$> wire outcome.2 =
    [None; Some "Bearer tok-2"] /\
  token outcome.2 = Some "tok-2" /\
  location_href outcome.2 = "/dashboard".
Proof. cbv zeta. repeat split. Qed.

(** With the token [tok-1] set, a health check leaves with
    [Authorization: Bearer tok-1]. *)
Lemma C1_witness :
  reachable toString None signed_in /\
  exists request,
    wire (perform toString HealthCheck (offline HealthCheck) signed_in).2 =
      wire signed_in ++ [request] /\
    headers request !! "Authorization" = Some "Bearer tok-1".
Proof.
  split; [exact signed_in_reachable|].
  exact (C1_bearer_iff_token_nonempty toString None offline HealthCheck signed_in
           signed_in_reachable).
Defined.

(** After [setToken] of the empty string a token is set, and yet the health
    check leaves without an Authorization header: the decoration as the
    specification words it does not hold. *)
Lemma C1_empty_token_counterexample : ~ bearer_iff_token_set toString None.
Proof.
  intros Hclaim.
  destruct (Hclaim offline HealthCheck (setToken EmptyString fresh))
    as (request & Hwire & Hheader).
  - apply reach_setToken, reach_constructor.
  - vm_compute in Hwire. injection Hwire as <-.
    vm_compute in Hheader. discriminate Hheader.
Qed.

(** A health check answered with 401 tears the session down; answered with
    500 it leaves the session as it was. *)
Lemma C2_witness :
  token signed_in = Some "tok-1" /\
  (let outcome := perform toString HealthCheck (health_backend 401 HealthCheck) signed_in in
   (exists error, outcome.1 = Rejected error /\ is_401 error = true) /\
   token outcome.2 = None /\
   localStorage outcome.2 !! "auth_token" = None /\
   location_href outcome.2 = "/login") /\
  (let outcome := perform toString HealthCheck (health_backend 500 HealthCheck) signed_in in
   (exists error, outcome.1 = Rejected error /\ is_401 error = false) /\
   token outcome.2 = Some "tok-1" /\
   location_href outcome.2 = "/dashboard").
Proof.
  split; [reflexivity|]. split; cbv zeta.
  - destruct (C2_unauthorized_teardown toString (health_backend 401) HealthCheck signed_in)
      as (request & _ & H).
    specialize (H 401 _ eq_refl). cbv zeta in H. destruct H as [H _].
    destruct (H eq_refl) as (Hres & Htok & _ & Hkey & Hhref).
    repeat split; try assumption. eexists. split; [exact Hres | reflexivity].
  - destruct (C2_unauthorized_teardown toString (health_backend 500) HealthCheck signed_in)
      as (request & _ & H).
    specialize (H 500 _ eq_refl). cbv zeta in H. destruct H as [_ H].
    destruct (H ltac:(discriminate) eq_refl) as (Hres & Htok & _ & Hhref).
    repeat split; try assumption. eexists. split; [exact Hres | reflexivity].
Defined.

(** After a successful login the token in memory and the token in storage
    are both the one the server issued. *)
Lemma C3_witness :
  let this := (perform toString Login (auth_backend "tok-2" Login) fresh).2 in
  reachable toString None this /\
  ((token restored = kept !! "auth_token" /\ localStorage restored = kept) /\
   token this = localStorage this !! "auth_token" /\
   (token (setToken "tok-3" this) = Some "tok-3" /\
    localStorage (setToken "tok-3" this) !! "auth_token" = Some "tok-3") /\
   (token (clearToken this) = None /\
    localStorage (clearToken this) !! "auth_token" = None) /\
   token (perform toString HealthCheck (health_backend 401 HealthCheck) this).2 =
     localStorage (perform toString HealthCheck (health_backend 401 HealthCheck) this).2
       !! "auth_token") /\
  token this = Some "tok-2" /\
  token restored = Some "tok-0" /\
  token (perform toString HealthCheck (health_backend 401 HealthCheck) this).2 = None.
Proof.
  cbv zeta.
  assert (Hr : reachable toString None
                 (perform toString Login (auth_backend "tok-2" Login) fresh).2)
    by exact (reach_perform toString None (auth_backend "tok-2") Login fresh
                (reach_constructor toString None ∅ "/dashboard")).
  split; [exact Hr|]. split; [|repeat split].
  exact (C3_token_mirrors_storage toString None (health_backend 401) HealthCheck
           "tok-3" kept "/dashboard" _ Hr).
Defined.

(** Signed in, then [clearToken()]: a health check, a listing and the next
    login all leave without a credential. *)
Lemma C4_witness :
  token signed_in = Some "tok-1" /\
  Forall (fun op => op <> Login) [HealthCheck; @GetDataSources Reference.number] /\
  token (clearToken signed_in) = None /\
  localStorage (clearToken signed_in) !! "auth_token" = None /\
  sends_unauthenticated toString (auth_backend "tok-2")
    ([HealthCheck; GetDataSources] ++ [Login]) (clearToken signed_in).
Proof.
  assert (Hops : Forall (fun op => op <> Login) [HealthCheck; @GetDataSources Reference.number])
    by (repeat constructor; discriminate).
  split; [reflexivity|]. split; [exact Hops|].
  exact (C4_clearToken_removes_credential toString None (auth_backend "tok-2")
           [HealthCheck; GetDataSources] Login signed_in signed_in_reachable Hops).
Defined.

(** A login answered with the token [tok-2]. *)
Lemma C5_witness :
  reachable toString None fresh /\
  token fresh = None /\
  (login (issue_token "tok-2") fresh).1 =
    Fulfilled {| access_token := "tok-2"; token_type := "bearer" |} /\
  token (login (issue_token "tok-2") fresh).2 = Some "tok-2" /\
  localStorage (login (issue_token "tok-2") fresh).2 !! "auth_token" = Some "tok-2".
Proof.
  split; [exact fresh_reachable|]. split; [reflexivity|].
  destruct (C5_login_sets_and_persists_token toString None (issue_token "tok-2") fresh
              fresh_reachable)
    as (request & _ & _ & _ & _ & _ & H).
  destruct (H 200 _ eq_refl eq_refl) as (Hres & Htok & _ & Hkey).
  repeat split; assumption.
Defined.

(** Resolving anomaly 42: the path, [true] when the server accepts, the
    rejection when it answers 404. *)
Lemma C6_witness :
  (exists request,
     wire (resolveAnomaly toString (fun _ _ => Responded 200 JNull)
             (Reference.integer 42) fresh).2 = [request] /\
     url request = Some "/anomalies/42/resolve") /\
  (resolveAnomaly toString (fun _ _ => Responded 200 JNull)
     (Reference.integer 42) fresh).1 = Fulfilled true /\
  (exists error,
     (resolveAnomaly toString (fun _ _ => Responded 404 (JString "Anomaly not found"))
        (Reference.integer 42) fresh).1 = Rejected error /\
     (status <$> response_of error) = Some 404).
Proof.
  split; [|split].
  - destruct (C6_resolveAnomaly_true_or_rejection toString
                (fun _ _ => Responded 200 JNull) (Reference.integer 42) fresh)
      as (request & Hw & _ & Hu & _).
    exists request. split; [exact Hw | exact Hu].
  - destruct (C6_resolveAnomaly_true_or_rejection toString
                (fun _ _ => Responded 200 JNull) (Reference.integer 42) fresh)
      as (request & _ & _ & _ & H & _).
    exact (H 200 JNull eq_refl eq_refl).
  - destruct (C6_resolveAnomaly_true_or_rejection toString
                (fun _ _ => Responded 404 (JString "Anomaly not found"))
                (Reference.integer 42) fresh)
      as (request & _ & _ & _ & _ & H).
    eexists. split; [exact (H _ eq_refl) | reflexivity].
Defined.

(** A series with a gap: the defaults fill the query, and the body comes
    back as it was sent, null included. *)
Lemma C7_witness :
  let body :=
    [ {| timestamp := "2024-05-01T00:00:00Z";
         value := Some {| Reference.mantissa := 425; Reference.exponent := -1 |} |};
      {| timestamp := "2024-05-01T01:00:00Z"; value := None |} ] in
  let net : Network (list TimeSeriesData) := fun _ _ => Responded 200 body in
  (exists request,
     wire (getTimeSeriesData net "cpu_usage" None None fresh).2 = [request] /\
     params request =
       Some [("metric_name", JString "cpu_usage");
             ("time_range", JString "24h");
             ("aggregation", JString "avg")]) /\
  (getTimeSeriesData net "cpu_usage" None None fresh).1 = Fulfilled body.
Proof.
  cbv zeta.
  match goal with
  | |- context [getTimeSeriesData ?net _ _ _ _] =>
      destruct (C7_getTimeSeriesData_query_and_passthrough net "cpu_usage" None None fresh)
        as (request & Hw & _ & _ & Hp & H)
  end.
  split.
  - exists request. split; [exact Hw | exact Hp].
  - exact (H 200 _ eq_refl eq_refl).
Defined.

Local Abbreviation form_page text :=
  ({| showAddForm := true; editingSource := None;
      formData := {| FormData_name := "prod-logs"; FormData_type := logs;
                     FormData_config := text; FormData_enabled := true |};
      alerts := []; invalidated := []; defaultPrevented := false |}
   : Settings (number := Reference.number)).
Local Abbreviation submit text :=
  (handleSubmit toString Reference.JSON_parse offline (form_page text, signed_in)).

(** The form with a config that is not JSON, and the form with the config it
    has after a reset. *)
Lemma C8_witness :
  Reference.JSON_parse "{host: db}" = None /\
  (submit "{host: db}").2 = signed_in /\
  alerts (submit "{host: db}").1 = ["Invalid JSON in config field"] /\
  Reference.JSON_parse "{}" = Some (JObject []) /\
  alerts (submit "{}").1 = [] /\
  exists request,
    wire (submit "{}").2 = [request] /\
    method request = Some POST /\
    url request = Some "/data-sources" /\
    payload request =
      Some (JObject [("name", JString "prod-logs"); ("type", JString "logs");
                     ("config", JObject []); ("enabled", JBool true)]).
Proof.
  destruct (C8_config_must_parse_before_any_call toString Reference.JSON_parse
              offline (form_page "{host: db}") signed_in) as [Hbad _].
  destruct (C8_config_must_parse_before_any_call toString Reference.JSON_parse
              offline (form_page "{}") signed_in) as [_ Hgood].
  destruct (Hbad eq_refl) as (Hstate & Halerts & _).
  destruct (Hgood _ eq_refl) as (Hquiet & request & Hw & Hp & Hm & Hu).
  split; [reflexivity|]. split; [exact Hstate|]. split; [exact Halerts|].
  split; [reflexivity|]. split; [exact Hquiet|].
  exists request. repeat split; assumption.
Defined.

(** A listing issued while signed in goes out with the timeout and, having
    no body, without the content type; the creation of a data source goes out
    with both. *)
Lemma C9_witness :
  reachable toString None signed_in /\
  (exists request,
     wire (perform toString GetDataSources (offline GetDataSources) signed_in).2 = [request] /\
     timeout (transmitted request) = Some 10000 /\
     headers request !! "Content-Type" = Some "application/json" /\
     headers (transmitted request) !! "Content-Type" = None) /\
  (exists request,
     wire (perform toString (CreateDataSource []) (offline (CreateDataSource [])) signed_in).2 =
       [request] /\
     timeout (transmitted request) = Some 10000 /\
     headers (transmitted request) !! "Content-Type" = Some "application/json").
Proof.
  split; [exact signed_in_reachable|]. split.
  - destruct (C9_uniform_timeout_and_content_type_of_bodies toString None offline
                GetDataSources signed_in signed_in_reachable)
      as (_ & _ & request & _ & Hw & Ht & Hc & Hh & _).
    exists request. split; [exact Hw|]. split; [exact Ht|]. split; [exact Hc | exact Hh].
  - destruct (C9_uniform_timeout_and_content_type_of_bodies toString None offline
                (CreateDataSource []) signed_in signed_in_reachable)
      as (_ & _ & request & _ & Hw & Ht & _ & Hh & _).
    exists request. split; [exact Hw|]. split; [exact Ht | exact Hh].
Defined.

(** The listing of the data sources has no body, so it goes out without a
    content type: the uniform header as the specification words it does not
    hold. *)
Lemma C9_bodiless_request_counterexample :
  ~ json_content_type_on_every_request toString None.
Proof.
  intros Hclaim.
  destruct (Hclaim offline GetDataSources signed_in signed_in_reachable)
    as (request & Hwire & _ & Hheader).
  vm_compute in Hwire. injection Hwire as <-.
  vm_compute in Hheader. discriminate Hheader.
Qed.

(** The empty token, set or restored: a health check, a listing and a login
    leave without a credential. *)
Lemma C10_witness :
  reachable toString None signed_in /\
  Forall (fun op => op <> Login) [HealthCheck; @GetDataSources Reference.number] /\
  token (setToken EmptyString signed_in) = Some EmptyString /\
  sends_unauthenticated toString offline
    ([HealthCheck; GetDataSources] ++ [Login]) (setToken EmptyString signed_in) /\
  sends_unauthenticated toString offline
    ([HealthCheck; GetDataSources] ++ [Login])
    (constructor None (<["auth_token" := EmptyString]> ∅) "/dashboard").
Proof.
  assert (Hops : Forall (fun op => op <> Login) [HealthCheck; @GetDataSources Reference.number])
    by (repeat constructor; discriminate).
  split; [exact signed_in_reachable|]. split; [exact Hops|].
  destruct (C10_empty_token_is_anonymous toString None offline
              [HealthCheck; GetDataSources] Login signed_in ∅ "/dashboard"
              signed_in_reachable Hops)
    as ((Htok & _ & Hset) & (_ & Hrestored)).
  split; [exact Htok|]. split; [exact Hset | exact Hrestored].
Defined.

(** ** Worked examples for the further properties *)

Local Abbreviation themed :=
  (setToken "tok-1"
     (constructor (number := Reference.number) None {[ "theme" := "dark" ]} "/dashboard")).
Local Abbreviation healthy := (health_backend (number := Reference.number) 200).
Local Abbreviation no_ops := [HealthCheck; @GetDataSources Reference.number].

Lemma no_ops_without_login :
  Forall (fun op => op <> Login) [HealthCheck; @GetDataSources Reference.number].
Proof. repeat constructor; discriminate. Qed.

Lemma healthy_never_unauthorized : never_unauthorized healthy.
Proof. intros op history request body. destruct op; discriminate. Qed.

(** The network is down while signed in. *)
Lemma no_response_witness :
  exists request,
    (perform toString HealthCheck (offline HealthCheck) signed_in).1 =
      Rejected {| code := Some "ERR_NETWORK"; config := request; response_of := None |} /\
    token (perform toString HealthCheck (offline HealthCheck) signed_in).2 = Some "tok-1" /\
    location_href (perform toString HealthCheck (offline HealthCheck) signed_in).2 =
      "/dashboard".
Proof.
  destruct (no_response_is_rejected_without_teardown toString offline HealthCheck signed_in)
    as (request & _ & H).
  destruct (H "ERR_NETWORK" eq_refl) as (Hres & Htok & _ & Hhref).
  exists request. repeat split; assumption.
Defined.

(** The health check hands back the body it received. *)
Lemma accepted_reply_witness :
  (perform toString HealthCheck (healthy HealthCheck) signed_in).1 =
    Fulfilled {| HealthResponse_status := "ok"; service := "analytics";
                 version := "1.0.0" |}.
Proof.
  destruct (accepted_reply_is_returned_as_is toString healthy HealthCheck signed_in)
    as (request & _ & H).
  destruct (H 200 _ eq_refl eq_refl) as (value & Hres & Hvalue).
  simpl in Hvalue. rewrite <- Hvalue. exact Hres.
Defined.

Lemma only_login_writes_witness :
  HealthCheck <> @Login Reference.number /\
  token (perform toString HealthCheck (healthy HealthCheck) signed_in).2 = Some "tok-1" /\
  localStorage (perform toString HealthCheck (healthy HealthCheck) signed_in).2 =
    localStorage signed_in.
Proof.
  assert (Hop : HealthCheck <> @Login Reference.number) by discriminate.
  split; [exact Hop|].
  destruct (only_login_writes_the_session toString healthy HealthCheck signed_in Hop)
    as (request & _ & H).
  destruct (H 200 _ eq_refl eq_refl) as (Htok & Hstore & _).
  split; assumption.
Defined.

(** A preference stored by someone else survives a 401. *)
Lemma other_keys_witness :
  "theme" <> "auth_token" /\
  localStorage themed !! "theme" = Some "dark" /\
  localStorage (clearToken themed) !! "theme" = Some "dark" /\
  localStorage (perform toString HealthCheck (health_backend 401 HealthCheck) themed).2
    !! "theme" = Some "dark".
Proof.
  assert (Hkey : "theme" <> "auth_token") by discriminate.
  split; [exact Hkey|].
  destruct (other_storage_keys_are_untouched toString (health_backend 401) HealthCheck
              "tok-2" "theme" themed Hkey) as (_ & Hclear & Hperform).
  split; [reflexivity|]. split.
  - rewrite Hclear. reflexivity.
  - rewrite Hperform. reflexivity.
Defined.

Lemma reload_witness :
  reachable toString None signed_in /\
  token (constructor (number := Reference.number) (Some "https://api.example.org")
           (localStorage signed_in) "/metrics") = Some "tok-1".
Proof.
  split; [exact signed_in_reachable|].
  exact (proj1 (reload_restores_the_token toString None (Some "https://api.example.org")
                  "/metrics" signed_in signed_in_reachable)).
Defined.

(** A 401 on the health check, then a listing, a health check and a login. *)
Lemma after_unauthorized_witness :
  reachable toString None signed_in /\
  Forall (fun op => op <> Login) no_ops /\
  sends_unauthenticated toString (health_backend 401) (no_ops ++ [Login])
    (perform toString HealthCheck (health_backend 401 HealthCheck) signed_in).2.
Proof.
  split; [exact signed_in_reachable|]. split; [exact no_ops_without_login|].
  destruct (after_unauthorized_requests_are_anonymous toString None (health_backend 401)
              HealthCheck no_ops Login signed_in signed_in_reachable no_ops_without_login)
    as (request & _ & H).
  exact (H _ eq_refl).
Defined.

Lemma token_carried_witness :
  reachable toString None signed_in /\
  token signed_in = Some "tok-1" /\
  "tok-1" <> EmptyString /\
  never_unauthorized healthy /\
  Forall (fun op => op <> Login) no_ops /\
  sends_bearer toString healthy "tok-1" no_ops signed_in /\
  token (run toString healthy no_ops signed_in) = Some "tok-1".
Proof.
  assert (Hne : "tok-1" <> EmptyString) by discriminate.
  split; [exact signed_in_reachable|]. split; [reflexivity|]. split; [exact Hne|].
  split; [exact healthy_never_unauthorized|]. split; [exact no_ops_without_login|].
  exact (token_is_carried_by_every_request toString None healthy "tok-1" no_ops signed_in
           signed_in_reachable eq_refl Hne healthy_never_unauthorized
           no_ops_without_login).
Defined.


(** Start-up with an empty storage, with a good token, and with the network
    down. *)
Lemma checkAuth_without_token_witness :
  truthy (localStorage fresh !! "auth_token") = false /\
  (checkAuth (healthy HealthCheck) (App_initial, fresh)).2.2 = fresh /\
  isAuthenticated (checkAuth (healthy HealthCheck) (App_initial, fresh)).2.1 = Some false /\
  isLoading (checkAuth (healthy HealthCheck) (App_initial, fresh)).2.1 = false.
Proof.
  assert (Hnone : truthy (localStorage fresh !! "auth_token") = false)
    by (vm_compute; reflexivity).
  split; [exact Hnone|].
  destruct (checkAuth_without_token_stays_local (healthy HealthCheck) App_initial fresh
              Hnone) as (_ & Hstate & Hauth & Hload & _).
  repeat split; assumption.
Defined.

Lemma checkAuth_verifies_witness :
  localStorage signed_in !! "auth_token" = Some "tok-1" /\
  (exists request,
     wire (checkAuth (healthy HealthCheck) (App_initial, signed_in)).2.2 = [request] /\
     headers request !! "Authorization" = Some "Bearer tok-1") /\
  isAuthenticated (checkAuth (healthy HealthCheck) (App_initial, signed_in)).2.1 = Some true /\
  isLoading (checkAuth (healthy HealthCheck) (App_initial, signed_in)).2.1 = false /\
  token (checkAuth (healthy HealthCheck) (App_initial, signed_in)).2.2 = Some "tok-1".
Proof.
  assert (Hstored : localStorage signed_in !! "auth_token" = Some "tok-1")
    by (vm_compute; reflexivity).
  split; [exact Hstored|].
  destruct (checkAuth_verifies_the_stored_token toString None (healthy HealthCheck)
              App_initial signed_in "tok-1" signed_in_reachable Hstored
              ltac:(discriminate))
    as (request & Hw & _ & _ & Hh & H).
  destruct (H 200 _ eq_refl eq_refl) as (Hauth & Hload & _ & Htok & _).
  split; [exists request; split; assumption|]. repeat split; assumption.
Defined.

Lemma checkAuth_failure_witness :
  localStorage signed_in !! "auth_token" = Some "tok-1" /\
  isAuthenticated (checkAuth (offline HealthCheck) (App_initial, signed_in)).2.1 =
    Some false /\
  console (checkAuth (offline HealthCheck) (App_initial, signed_in)).2.1 =
    ["Auth check failed:"] /\
  token (checkAuth (offline HealthCheck) (App_initial, signed_in)).2.2 = None /\
  localStorage (checkAuth (offline HealthCheck) (App_initial, signed_in)).2.2
    !! "auth_token" = None.
Proof.
  assert (Hstored : localStorage signed_in !! "auth_token" = Some "tok-1")
    by (vm_compute; reflexivity).
  split; [exact Hstored|].
  destruct (checkAuth_signs_out_on_any_failure (offline HealthCheck) App_initial signed_in
              "tok-1" Hstored ltac:(discriminate))
    as (request & _ & H).
  destruct (H _ eq_refl) as (_ & Hauth & _ & Hconsole & Htok & Hstore).
  split; [exact Hauth|]. split; [exact Hconsole|]. split; [exact Htok|].
  rewrite Hstore. apply lookup_delete_eq.
Defined.

(** The login button, with the server up and with the network down. *)
Lemma handleLogin_witness :
  isAuthenticated (handleLogin (issue_token "tok-2") (App_initial, fresh)).2.1 = Some true /\
  token (handleLogin (issue_token "tok-2") (App_initial, fresh)).2.2 = Some "tok-2" /\
  isAuthenticated (handleLogin (offline Login) (App_initial, fresh)).2.1 = Some false /\
  console (handleLogin (offline Login) (App_initial, fresh)).2.1 = ["Login failed:"] /\
  token (handleLogin (offline Login) (App_initial, fresh)).2.2 = None.
Proof.
  destruct (handleLogin_follows_the_login_outcome (issue_token "tok-2") App_initial fresh)
    as (_ & _ & request & _ & Hok & _).
  destruct (Hok 200 _ eq_refl eq_refl) as (Hauth & _ & Htok & _).
  destruct (handleLogin_follows_the_login_outcome (offline Login) App_initial fresh)
    as (_ & _ & request' & _ & _ & Hbad).
  destruct (Hbad _ eq_refl) as (Hauth' & Hconsole & Htok' & _).
  repeat split; assumption.
Defined.

Lemma handleLogout_witness :
  reachable toString None signed_in /\
  Forall (fun op => op <> Login) no_ops /\
  token signed_in = Some "tok-1" /\
  wire (handleLogout (App_initial, signed_in)).2 = [] /\
  token (handleLogout (App_initial, signed_in)).2 = None /\
  sends_unauthenticated toString healthy (no_ops ++ [Login])
    (handleLogout (App_initial, signed_in)).2.
Proof.
  split; [exact signed_in_reachable|]. split; [exact no_ops_without_login|].
  split; [reflexivity|].
  destruct (handleLogout_is_local toString None healthy no_ops Login App_initial signed_in
              signed_in_reachable no_ops_without_login)
    as (Hw & _ & Htok & _ & Hrun).
  repeat split; assumption.
Defined.

(** Sign in, reload the page, and the session is still there. *)
Lemma login_reload_witness :
  let reloaded :=
    constructor (number := Reference.number) None
      (localStorage (handleLogin (issue_token "tok-2") (App_initial, fresh)).2.2)
      "/dashboard" in
  reachable toString None fresh /\
  (login (issue_token "tok-2") fresh).1 =
    Fulfilled {| access_token := "tok-2"; token_type := "bearer" |} /\
  token reloaded = Some "tok-2" /\
  exists request,
    wire (checkAuth (healthy HealthCheck) (App_initial, reloaded)).2.2 = [request] /\
    headers request !! "Authorization" = Some "Bearer tok-2" /\
    isAuthenticated (checkAuth (healthy HealthCheck) (App_initial, reloaded)).2.1 = Some true.
Proof.
  cbv zeta.
  assert (Hlogin : (login (issue_token "tok-2") fresh).1 =
                     Fulfilled {| access_token := "tok-2"; token_type := "bearer" |})
    by reflexivity.
  split; [exact fresh_reachable|]. split; [exact Hlogin|].
  destruct (login_survives_a_reload toString None None "/dashboard" (issue_token "tok-2")
              (healthy HealthCheck) App_initial fresh _ fresh_reachable Hlogin
              ltac:(discriminate))
    as (Htok & request & Hw & Hh & H).
  split; [exact Htok|]. exists request. split; [exact Hw|]. split; [exact Hh|].
  exact (proj1 (H 200 _ eq_refl eq_refl)).
Defined.

(** The server issues an empty token. *)
Lemma empty_issued_token_witness :
  reachable toString None fresh /\
  (login (issue_token EmptyString) fresh).1 =
    Fulfilled {| access_token := EmptyString; token_type := "bearer" |} /\
  Forall (fun op => op <> Login) no_ops /\
  isAuthenticated (handleLogin (issue_token EmptyString) (App_initial, fresh)).2.1 =
    Some true /\
  sends_unauthenticated toString healthy (no_ops ++ [Login])
    (handleLogin (issue_token EmptyString) (App_initial, fresh)).2.2.
Proof.
  assert (Hlogin : (login (issue_token EmptyString) fresh).1 =
                     Fulfilled {| access_token := EmptyString; token_type := "bearer" |})
    by reflexivity.
  split; [exact fresh_reachable|]. split; [exact Hlogin|].
  split; [exact no_ops_without_login|].
  destruct (empty_issued_token_authenticates_without_credential toString None None
              "/dashboard" (issue_token EmptyString) (healthy HealthCheck) healthy
              no_ops Login App_initial fresh _ fresh_reachable Hlogin eq_refl
              no_ops_without_login)
    as (Hauth & Hrun & _).
  split; [exact Hauth | exact Hrun].
Defined.

Local Abbreviation prod_db :=
  ({| DataSource_id := Reference.integer 7;
      DataSource_name := "prod-db";
      DataSource_type := metrics;
      DataSource_config :=
        [("host", JString "db.internal"); ("port", JNumber (Reference.integer 5432));
         ("replicas", JArray [JString "a"; JString "b"])];
      DataSource_enabled := false;
      DataSource_last_sync := None;
      DataSource_created_at := "2024-05-01T00:00:00Z";
      DataSource_updated_at := None |}
   : DataSource (number := Reference.number)).

(** The delete button, declined and confirmed. *)
Lemma handleDelete_witness :
  handleDelete toString (fun _ => false) (storing_backend prod_db) (Reference.integer 7)
    (form_page "{}", signed_in) = (form_page "{}", signed_in) /\
  exists request,
    wire (handleDelete toString (fun _ => true) (storing_backend prod_db)
            (Reference.integer 7) (form_page "{}", signed_in)).2 = [request] /\
    method request = Some DELETE /\
    url request = Some "/data-sources/7" /\
    invalidated (handleDelete toString (fun _ => true) (storing_backend prod_db)
                   (Reference.integer 7) (form_page "{}", signed_in)).1 = ["data-sources"].
Proof.
  split.
  - exact (proj1 (handleDelete_asks_first toString (fun _ => false)
                    (storing_backend prod_db) (Reference.integer 7) (form_page "{}")
                    signed_in) eq_refl).
  - destruct (proj2 (handleDelete_asks_first toString (fun _ => true)
                       (storing_backend prod_db) (Reference.integer 7) (form_page "{}")
                       signed_in) eq_refl)
      as (request & Hw & Hm & Hu & _ & _ & _ & Hok & _).
    exists request. split; [exact Hw|]. split; [exact Hm|]. split; [exact Hu|].
    exact (Hok 204 _ eq_refl eq_refl).
Defined.

(** Saving a new source with the server up, and with the network down. *)
Lemma create_outcome_witness :
  Reference.JSON_parse "{}" = Some (JObject []) /\
  (let after :=
     handleSubmit toString Reference.JSON_parse (storing_backend prod_db)
       (form_page "{}", signed_in) in
   showAddForm after.1 = false /\
   FormData_name (formData after.1) = EmptyString /\
   invalidated after.1 = ["data-sources"]) /\
  (let after :=
     handleSubmit toString Reference.JSON_parse offline (form_page "{}", signed_in) in
   showAddForm after.1 = true /\
   FormData_name (formData after.1) = "prod-logs" /\
   invalidated after.1 = []).
Proof.
  assert (Hparse : Reference.JSON_parse "{}" = Some (JObject [])) by reflexivity.
  split; [exact Hparse|]. split; cbv zeta.
  - destruct (create_keeps_the_form_on_failure toString Reference.JSON_parse
                (storing_backend prod_db) (form_page "{}") signed_in _ Hparse eq_refl)
      as (request & _ & Hok & _).
    destruct (Hok 201 _ eq_refl eq_refl) as (Hshown & Hform & Hinv).
    split; [exact Hshown|]. split; [rewrite Hform; reflexivity | exact Hinv].
  - destruct (create_keeps_the_form_on_failure toString Reference.JSON_parse
                offline (form_page "{}") signed_in _ Hparse eq_refl)
      as (request & _ & _ & Hbad).
    destruct (Hbad _ eq_refl) as (Hshown & Hform & _ & Hinv).
    split; [exact Hshown|]. split; [rewrite Hform; reflexivity | exact Hinv].
Defined.

Local Abbreviation editing_page :=
  (handleEdit Reference.JSON_stringify prod_db (form_page "{}")).

(** Saving an edit: the form is reset but still shown. *)
Lemma update_outcome_witness :
  editingSource editing_page = Some prod_db /\
  (let after :=
     handleSubmit toString Reference.JSON_parse (storing_backend prod_db)
       (editing_page, signed_in) in
   editingSource after.1 = None /\
   showAddForm after.1 = true /\
   invalidated after.1 = ["data-sources"]).
Proof.
  split; [reflexivity|]. cbv zeta.
  destruct (update_leaves_the_form_shown toString Reference.JSON_parse
              (storing_backend prod_db) editing_page signed_in
              (JObject (DataSource_config prod_db)) prod_db
              ltac:(vm_compute; reflexivity) eq_refl)
    as (request & _ & Hok & _).
  destruct (Hok 200 _ eq_refl eq_refl) as (Hedit & Hshown & _ & Hinv).
  split; [exact Hedit|]. split; [exact Hshown | exact Hinv].
Defined.

(** Edit and submit at once: the config goes back as it came. *)
Lemma edit_then_submit_witness :
  Reference.JSON_parse (Reference.JSON_stringify (JObject (DataSource_config prod_db)) 2) =
    Some (JObject (DataSource_config prod_db)) /\
  exists request,
    wire (handleSubmit toString Reference.JSON_parse offline (editing_page, signed_in)).2 =
      [request] /\
    method request = Some PUT /\
    url request = Some "/data-sources/7" /\
    payload request =
      Some (JObject [("name", JString "prod-db"); ("type", JString "metrics");
                     ("config", JObject (DataSource_config prod_db));
                     ("enabled", JBool false)]).
Proof.
  assert (Hround : Reference.JSON_parse
                     (Reference.JSON_stringify (JObject (DataSource_config prod_db)) 2) =
                   Some (JObject (DataSource_config prod_db)))
    by (vm_compute; reflexivity).
  split; [exact Hround|].
  destruct (edit_then_submit_updates_that_source toString Reference.JSON_parse
              Reference.JSON_stringify offline prod_db (form_page "{}") signed_in _ Hround)
    as (request & Hw & Hm & Hu & Hp & _).
  exists request. repeat split; assumption.
Defined.

Lemma add_after_edit_witness :
  Reference.JSON_parse "{}" = Some (JObject []) /\
  exists request,
    wire (handleSubmit toString Reference.JSON_parse offline
            (onClick_add editing_page, signed_in)).2 = [request] /\
    method request = Some POST /\
    url request = Some "/data-sources".
Proof.
  assert (Hparse : Reference.JSON_parse "{}" = Some (JObject [])) by reflexivity.
  split; [exact Hparse|].
  destruct (add_or_cancel_ends_the_edit toString Reference.JSON_parse
              Reference.JSON_stringify offline prod_db (form_page "{}") signed_in _ Hparse)
    as (_ & _ & _ & request & Hw & Hm & Hu & _).
  exists request. repeat split; assumption.
Defined.

(** Three anomalies on the page. *)
Example severity_cards_sample :
  let anomaly severity' :=
    {| Anomaly_id := Reference.integer 1; Anomaly_metric_id := Reference.integer 1;
       Anomaly_severity := severity';
       Anomaly_score := {| Reference.mantissa := 9; Reference.exponent := -1 |};
       Anomaly_description := "spike"; Anomaly_detected_at := "2024-05-01T00:00:00Z";
       Anomaly_resolved := false; Anomaly_resolved_at := None;
       Anomaly_metadata := None; Anomaly_created_at := "2024-05-01T00:00:00Z" |} in
  severity_cards (Some [anomaly high; anomaly low; anomaly high]) =
    [("critical", 0%nat); ("high", 2%nat); ("medium", 0%nat); ("low", 1%nat)].
Proof. reflexivity. Qed.


Local Abbreviation Message_json :=
  (fun message : Message (number := Reference.number) (Date := string) =>
     JObject [("id", JString (Message_id message));
              ("content", JString (Message_content message));
              ("sender", JString match Message_sender message with
                                 | user => "user"
                                 | bot => "bot"
                                 end);
              ("timestamp", JString (Message_timestamp message))]).
Local Abbreviation greeting :=
  ({| Message_id := "1"; Message_content := "Hello!"; Message_sender := bot;
      Message_timestamp := "2024-05-01T00:00:00.000Z"; Message_metadata := None |}
   : Message (number := Reference.number) (Date := string)).
Local Abbreviation chat_with text busy :=
  ({| messages := [greeting]; input := text; Chat_isLoading := busy; notified := [] |}
   : Chat (number := Reference.number) (Date := string)).
Local Abbreviation readings :=
  ({| user_id := "1714521600000"; user_time := "2024-05-01T00:00:00.000Z";
      request_time := "2024-05-01T00:00:00.001Z";
      reply_id := "1714521600501"; reply_time := "2024-05-01T00:00:00.500Z";
      error_id := "1714521600502"; error_time := "2024-05-01T00:00:00.501Z" |}
   : Readings (Date := string)).
Local Abbreviation assistant text found :=
  ((fun _ _ =>
      Responded 200
        {| result := {| response := text; insights := found;
                        ConversationalResult_data := None |};
           ConversationalQueryResponse_metadata :=
             {| processing_time := Reference.integer 120;
                confidence := {| Reference.mantissa := 9; Reference.exponent := -1 |};
                model_used := "assistant-1" |} |})
   : Network (ConversationalQueryResponse (number := Reference.number))).
Local Abbreviation panel :=
  (Some (handleInsightGenerated_outcome (number := Reference.number))).
Local Abbreviation send_message net chat :=
  (handleSendMessage Reference.String_trim Message_json net panel readings
     (chat, signed_in)).

(** Blanks only, and a message typed while the last one is in flight. *)
Lemma blank_or_busy_witness :
  Reference.String_trim "   " = EmptyString /\
  send_message (assistant "ok" None) (chat_with "   " false) =
    (Fulfilled tt, (chat_with "   " false, signed_in)) /\
  send_message (assistant "ok" None) (chat_with "Check error rates" true) =
    (Fulfilled tt, (chat_with "Check error rates" true, signed_in)).
Proof.
  split; [reflexivity|]. split.
  - exact (blank_or_busy_sends_nothing Reference.String_trim Message_json
             (assistant "ok" None) panel readings (chat_with "   " false) signed_in
             (or_introl eq_refl)).
  - exact (blank_or_busy_sends_nothing Reference.String_trim Message_json
             (assistant "ok" None) panel readings (chat_with "Check error rates" true)
             signed_in (or_intror eq_refl)).
Defined.

(** One question to the assistant, answered without insights; and one
    answered with the insights [[null]], on which the page's
    [handleInsightGenerated] throws: the answer is followed by the error
    text. *)
Lemma one_exchange_witness :
  Reference.String_trim " Check error rates " <> EmptyString /\
  (let after :=
     send_message (assistant "All good." None) (chat_with " Check error rates " false) in
   input after.2.1 = EmptyString /\
   Chat_isLoading after.2.1 = false /\
   length (messages after.2.1) = 3%nat /\
   exists request,
     wire after.2.2 = [request] /\
     url request = Some "/ai-agents/conversational-query" /\
     payload request =
       Some (JObject [("query", JString " Check error rates ");
                      ("context",
                       JObject [("previous_messages", JArray [Message_json greeting]);
                                ("timestamp", JString "2024-05-01T00:00:00.001Z")])])) /\
  (let after :=
     send_message (assistant "All good." (Some [JNull]))
       (chat_with " Check error rates " false) in
   after.1 = Fulfilled tt /\
   Chat_isLoading after.2.1 = false /\
   length (messages after.2.1) = 4%nat /\
   exists request, wire after.2.2 = [request]).
Proof.
  assert (Hne : Reference.String_trim " Check error rates " <> EmptyString)
    by (vm_compute; discriminate).
  split; [exact Hne|]. split; cbv zeta.
  - destruct (one_message_one_request_one_reply Reference.String_trim Message_json
                (assistant "All good." None) panel readings
                (chat_with " Check error rates " false) signed_in Hne eq_refl)
      as (_ & Hinput & Hload & request & previous & Hw & _ & Hu & _ & _ & _
          & replies & Hmessages & _ & [Hone|Hlen] & Htwo).
    split; [exact Hinput|]. split; [exact Hload|].
    split.
    + rewrite Hmessages, length_app. simpl. rewrite Hone. reflexivity.
    + exists request. split; [exact Hw|]. split; [exact Hu|].
      vm_compute in Hw. injection Hw as <-. reflexivity.
    + exfalso. apply Htwo in Hlen.
      destruct Hlen as (status' & body & insights' & callback & Hreply & _ & Hins & _).
      injection Hreply as <- <-. discriminate Hins.
  - destruct (one_message_one_request_one_reply Reference.String_trim Message_json
                (assistant "All good." (Some [JNull])) panel readings
                (chat_with " Check error rates " false) signed_in Hne eq_refl)
      as (Hdone & _ & Hload & request & previous & Hw & _ & _ & _ & _ & _
          & replies & Hmessages & _ & _ & Htwo).
    split; [exact Hdone|]. split; [exact Hload|].
    split; [|exists request; exact Hw].
    rewrite Hmessages. rewrite length_app. simpl.
    rewrite (proj2 Htwo); [reflexivity|].
    eexists 200, _, [JNull], _.
    split; [reflexivity|]. split; [reflexivity|]. split; [reflexivity|].
    split; reflexivity.
Defined.

(** An answer with insights, an empty answer, an answer with the insights
    [[null]], and the network down. *)
Lemma reply_shown_witness :
  Reference.String_trim "Check error rates" <> EmptyString /\
  (let after :=
     send_message (assistant "All good." (Some [JString "errors are flat"]))
       (chat_with "Check error rates" false) in
   Message_content <$> drop 2 (messages after.2.1) = ["All good."] /\
   notified after.2.1 = [[JString "errors are flat"]]) /\
  (let after :=
     send_message (assistant EmptyString None) (chat_with "Check error rates" false) in
   Message_content <$> drop 2 (messages after.2.1) =
     ["I apologize, but I couldn't process your request. Please try again."]) /\
  (let after :=
     send_message (assistant "All good." (Some [JNull]))
       (chat_with "Check error rates" false) in
   Message_content <$> drop 2 (messages after.2.1) =
     ["All good.";
      "Sorry, I encountered an error while processing your request. Please try again later."] /\
   notified after.2.1 = [[JNull]]) /\
  (let after :=
     send_message (offline (ProcessConversationalQuery []))
       (chat_with "Check error rates" false) in
   Message_content <$> drop 2 (messages after.2.1) =
     ["Sorry, I encountered an error while processing your request. Please try again later."] /\
   token after.2.2 = Some "tok-1").
Proof.
  assert (Hne : Reference.String_trim "Check error rates" <> EmptyString)
    by (vm_compute; discriminate).
  split; [exact Hne|]. split; [|split; [|split]]; cbv zeta.
  - destruct (the_reply_shown_follows_the_outcome Reference.String_trim Message_json
                (assistant "All good." (Some [JString "errors are flat"])) panel readings
                (chat_with "Check error rates" false) signed_in Hne eq_refl)
      as (request & _ & Hok & _).
    destruct (Hok 200 _ eq_refl eq_refl) as (Hshown & Hnotified & _).
    split; [|exact Hnotified].
    change (drop 2) with (drop (A := Message (number := Reference.number) (Date := string))
                            (S (length (messages (chat_with "Check error rates" false))))).
    rewrite Hshown. reflexivity.
  - destruct (the_reply_shown_follows_the_outcome Reference.String_trim Message_json
                (assistant EmptyString None) panel readings
                (chat_with "Check error rates" false) signed_in Hne eq_refl)
      as (request & _ & Hok & _).
    destruct (Hok 200 _ eq_refl eq_refl) as (Hshown & _).
    change (drop 2) with (drop (A := Message (number := Reference.number) (Date := string))
                            (S (length (messages (chat_with "Check error rates" false))))).
    rewrite Hshown. reflexivity.
  - destruct (the_reply_shown_follows_the_outcome Reference.String_trim Message_json
                (assistant "All good." (Some [JNull])) panel readings
                (chat_with "Check error rates" false) signed_in Hne eq_refl)
      as (request & _ & Hok & _).
    destruct (Hok 200 _ eq_refl eq_refl) as (Hshown & Hnotified & _).
    split; [|exact Hnotified].
    change (drop 2) with (drop (A := Message (number := Reference.number) (Date := string))
                            (S (length (messages (chat_with "Check error rates" false))))).
    rewrite Hshown. reflexivity.
  - destruct (the_reply_shown_follows_the_outcome Reference.String_trim Message_json
                (offline (ProcessConversationalQuery [])) panel readings
                (chat_with "Check error rates" false) signed_in Hne eq_refl)
      as (request & _ & _ & Hbad).
    destruct (Hbad _ eq_refl) as (Hshown & _ & Htok & _).
    split; [|exact Htok].
    change (drop 2) with (drop (A := Message (number := Reference.number) (Date := string))
                            (S (length (messages (chat_with "Check error rates" false))))).
    rewrite Hshown. reflexivity.
Defined.
